(** * Teleport Connect: the terminal document session

    A shallow embedding of
    [web/packages/teleterm/src/ui/DocumentTerminal/useDocumentTerminal.ts]:
    the parsing and resolution of a [loginHost] document, the construction of
    the PTY command, the wiring of the PTY process events and the [reconnect]
    operation of the hook.

    Documents, commands and partial documents are JavaScript objects; they are
    modelled as finite maps from property names to values, so that the object
    spread, the [in] operator and properties that hold [undefined] mean here
    what they mean in the source.  Calls on the services of the application
    context are recorded in a trace of effects; a thrown error ends the
    computation and keeps the trace built so far. *)

From Stdlib Require Import ZArith Ascii String List Lia.
From stdpp Require Import base option list gmap strings pretty.

Local Open Scope string_scope.
Local Open Scope Z_scope.
Local Open Scope list_scope.
Local Open Scope stdpp_scope.

(** ** Strings and arrays of strings *)

Module Js.

(** [s.split(sep)] for a one-character separator.  The result is never the
    empty array: the empty string splits into one empty token.  A string is
    its sequence of UTF-8 bytes; an ASCII separator such as [@] is never part
    of a longer sequence, so the tokens are those of the JavaScript string. *)
Fixpoint split (sep : ascii) (s : string) : list string :=
  match s with
  | EmptyString => [EmptyString]
  | String c s' =>
      if Ascii.eqb c sep then EmptyString :: split sep s'
      else match split sep s' with
           | t :: ts => String c t :: ts
           | [] => [String c EmptyString]
           end
  end.

(** [parts.join(sep)] for a one-character separator. *)
Fixpoint join (sep : ascii) (parts : list string) : string :=
  match parts with
  | [] => EmptyString
  | [p] => p
  | p :: ps => p +:+ String sep (join sep ps)
  end.

(** [parts.pop()]: the last element ([undefined] for an empty array) and the
    array that is left. *)
Definition pop (parts : list string) : option string * list string :=
  (last parts, removelast parts).

(** Whether the character occurs in the string. *)
Fixpoint occurs (c : ascii) (s : string) : bool :=
  match s with
  | EmptyString => false
  | String d s' => Ascii.eqb d c || occurs c s'
  end.

End Js.

(** ** Values and objects *)

(** The values that the properties of a document or of a command hold. *)
Inductive jsval :=
| VUndef
| VStr (s : string)
| VNum (n : Z).

#[global] Instance jsval_eq_dec : EqDecision jsval.
Proof. solve_decision. Defined.

Abbreviation jsobj := (gmap string jsval).

(** [o.k]: a property that is missing reads as [undefined]. *)
Definition prop (o : jsobj) (k : string) : jsval := default VUndef (o !! k).

(** ['k' in o]. *)
Definition has_key (o : jsobj) (k : string) : bool := bool_decide (is_Some (o !! k)).

(** [{...a, ...b}]: the properties of [b] win. *)
Definition spread (a b : jsobj) : jsobj := b ∪ a.

(** A variable of type [string | undefined] as a value. *)
Definition of_opt (s : option string) : jsval :=
  match s with
  | Some s => VStr s
  | None => VUndef
  end.

(** Truthiness of a [string | undefined]: [undefined] and the empty string are
    falsy. *)
Definition truthy (s : option string) : bool :=
  match s with
  | Some (String _ _) => true
  | _ => false
  end.

(** [a || b] on strings. *)
Definition or_else (s : option string) (d : string) : string :=
  match s with
  | Some (String c r) => String c r
  | _ => d
  end.

(** An object literal [{...base, k1: v1, k2: v2}]: later properties win. *)
Definition obj (base : jsobj) (fields : list (string * jsval)) : jsobj :=
  foldl (λ o kv, <[kv.1 := kv.2]> o) base fields.

(** ** Errors, effects and computations *)

(** What the code can catch: the error of an ambiguous host name, which
    [instanceof] tells apart, any other [Error], and the [TypeError] of the
    runtime. *)
Inductive js_error :=
| AmbiguousHostnameError (message : string)
| Error (message : string)
| TypeError (message : string).

(** The calls that leave the hook: on the documents service, the logger, the
    usage and notifications services, the terminals service and the PTY
    process. *)
Inductive effect :=
| Update (uri : jsval) (partialDoc : jsobj)
| Close (uri : jsval)
| LoggerError (message : string)
| CaptureProtocolUse (clusterUri : string) (protocol : string)
| NotifyWarning (title : string)
| CreatePtyProcess (cmd : jsobj)
| Dispose (ptyProcess : nat).

Inductive outcome (A : Type) :=
| Returns (a : A)
| Throws (e : js_error).
Arguments Returns {A} a.
Arguments Throws {A} e.

(** An (awaited) computation: the effects it issued, in order, and how it
    ended. *)
Definition M (A : Type) : Type := list effect * outcome A.

Definition ret {A} (a : A) : M A := ([], Returns a).

Definition throw {A} (e : js_error) : M A := ([], Throws e).

Definition bind {A B} (m : M A) (k : A → M B) : M B :=
  match m with
  | (t, Returns a) => let '(t', r) := k a in (t ++ t', r)
  | (t, Throws e) => (t, Throws e)
  end.

#[global] Instance M_ret : MRet M := @ret.
#[global] Instance M_bind : MBind M := λ A B k m, bind m k.

(** [try { m } catch (e) { h e }]. *)
Definition try_catch {A} (m : M A) (h : js_error → M A) : M A :=
  match m with
  | (t, Throws e) => let '(t', r) := h e in (t ++ t', r)
  | (t, Returns a) => (t, Returns a)
  end.

Definition emit (e : effect) : M unit := ([e], Returns tt).

Definition lift {A} (o : outcome A) : M A := ([], o).

Definition when (b : bool) (m : M unit) : M unit := if b then m else ret tt.

Definition trace {A} (m : M A) : list effect := m.1.

Definition result {A} (m : M A) : outcome A := m.2.

(** ** The services the hook calls *)

(** [teleterm/ui/uri]'s [routing], which the hook imports: the two builders
    return a URI, the two parsers return the parameters of the matched path,
    or [null] when the URI does not match.  The hook is verified against any
    such routing. *)
Record Routing := {
  getClusterUri : jsval → jsval → string;
  getServerUri : jsval → jsval → string → string;
  parseServerUri : string → option (gmap string string);
  parseClusterUri : string → option (gmap string string);
}.

(** [tsh.Server], as far as the hook reads it. *)
Record Server := {
  server_uri : string;
  server_hostname : string;
}.

(** A cluster of the clusters service, as far as the hook reads it. *)
Record Cluster := {
  cluster_name : string;
  cluster_proxyHost : string;
}.

Inductive PtyProcessCreationStatus :=
| Ok
| ResolveShellEnvTimeout.

#[global] Instance PtyProcessCreationStatus_eq_dec : EqDecision PtyProcessCreationStatus.
Proof. solve_decision. Defined.

(** [IAppContext], as far as the hook calls it.  [getServerByHostname] is the
    outcome of the whole call
    [retryWithRelogin(ctx, clusterUri, () => getServerByHostname(clusterUri, host))]:
    the wrapper is opaque to the hook, which awaits one result.  A PTY process
    is named by a number. *)
Record IAppContext := {
  getServerByHostname : string → string → outcome (option Server);
  findCluster : string → option Cluster;
  findRootClusterByResource : string → option Cluster;
  terminalsService_createPtyProcess : jsobj → outcome (nat * PtyProcessCreationStatus);
}.

(** [documentsService.update(uri, partialDoc)]. *)
Definition documentsService_update (uri : jsval) (partialDoc : jsobj) : M unit :=
  emit (Update uri partialDoc).

(** [documentsService.close(uri)]. *)
Definition documentsService_close (uri : jsval) : M unit :=
  emit (Close uri).

(** Modelled from the spec: the type guard [isDocumentTshNodeWithLoginHost] of
    [teleterm/ui/services/workspacesService] is not among the sources.  The
    unresolved variant of an SSH document is the one without a [serverId]
    (the error of [createCmd] says as much), so the guard tests the kind and
    the absence of that property. *)
Definition isDocumentTshNodeWithLoginHost (doc : jsobj) : bool :=
  bool_decide (prop doc "kind" = VStr "doc.terminal_tsh_node")
  && negb (has_key doc "serverId").

(** Modelled from the spec: [runOnce] of [shared/utils/highbar] is not among
    the sources.  It is a one-shot gate; the comment in [setUpPtyProcess]
    records that it keeps a counter [n] from which every call of the returned
    function subtracts 1.  The gate starts at 2 and the wrapped function runs
    when the counter is still positive after the subtraction.  The counter is
    a JavaScript number: at -2^53 the subtraction rounds back to -2^53. *)
Definition runOnce_init : Z := 2.

(** Modelled from the spec: one call of the function that [runOnce] returned,
    on the counter of its closure; the new counter, and whether the wrapped
    function runs. *)
Definition runOnce_call (n : Z) : Z * bool :=
  let n' := if n <=? - 2 ^ 53 then n else n - 1 in
  (n', 0 <? n').

(** Modelled from the spec: the documents service is not among the sources.
    [update] applies a merge-patch to the stored document with that URI and
    [close] removes it from the workspace. *)
Definition store_step (docs : gmap string jsobj) (e : effect) : gmap string jsobj :=
  match e with
  | Update (VStr uri) partialDoc => alter (λ d, spread d partialDoc) uri docs
  | Close (VStr uri) => delete uri docs
  | _ => docs
  end.

(** Modelled from the spec: the documents service after the calls of a
    trace. *)
Definition store_run (docs : gmap string jsobj) (t : list effect) : gmap string jsobj :=
  foldl store_step docs t.

(** ** The hook *)

(** [docFieldsToUpdate] of [resolveLoginHost]. *)
Definition docFieldsToUpdate (serverId : jsval) (serverUri : string)
    (login : option string) (title : string) : jsobj :=
  obj ∅ [("loginHost", VUndef);
         ("serverId", serverId);
         ("serverUri", VStr serverUri);
         ("login", of_opt login);
         ("title", VStr title)].

Section Hook.

Context (routing : Routing).

(** [routing.getClusterUri({ rootClusterId: doc.rootClusterId,
    leafClusterId: doc.leafClusterId })], which [resolveLoginHost] and
    [setUpPtyProcess] both compute. *)
Definition docClusterUri (doc : jsobj) : string :=
  getClusterUri routing (prop doc "rootClusterId") (prop doc "leafClusterId").

(** [routing.getServerUri({ rootClusterId: doc.rootClusterId,
    leafClusterId: doc.leafClusterId, serverId: host })]. *)
Definition literalServerUri (doc : jsobj) (host : string) : string :=
  getServerUri routing (prop doc "rootClusterId") (prop doc "leafClusterId") host.

(** The first lines of [resolveLoginHost]: the split of [loginHost] into a
    login and a host.  [split] never returns the empty array, so the defaults
    for an [undefined] element are never taken. *)
Definition parseLoginHost (loginHost : string) : option string * string :=
  let parts := Js.split "@" loginHost in
  if (1 <? length parts)%nat then
    let '(host, parts) := Js.pop parts in
    (Some (Js.join "@" parts), default "" host)
  else
    (None, default "" (parts !! 0%nat)).

Definition resolveLoginHost (ctx : IAppContext) (doc : jsobj) : M jsobj :=
  loginHost ← match prop doc "loginHost" with
              | VStr s => ret s
              | _ => throw (TypeError "doc.loginHost.split is not a function")
              end;
  let '(login, host) := parseLoginHost loginHost in
  let clusterUri := docClusterUri doc in
  server ← try_catch
             (lift (getServerByHostname ctx clusterUri host))
             (λ error,
                match error with
                | AmbiguousHostnameError message =>
                    emit (LoggerError message);; ret None
                | _ => throw error
                end);
  let '(serverUri, serverHostname) :=
    match server with
    | Some server => (server_uri server, server_hostname server)
    | None => (literalServerUri doc host, host)
    end in
  let title :=
    if truthy login then default "" login +:+ "@" +:+ serverHostname
    else serverHostname in
  params ← match parseServerUri routing serverUri with
           | Some params => ret params
           | None => throw (TypeError "Cannot read properties of null (reading 'params')")
           end;
  let docFieldsToUpdate :=
    docFieldsToUpdate (of_opt (params !! "serverId")) serverUri login title in
  let updatedDoc := spread doc docFieldsToUpdate in
  documentsService_update (prop doc "uri") docFieldsToUpdate;;
  ret updatedDoc.

Definition createCmd (doc : jsobj) (proxyHost clusterName : string) : outcome jsobj :=
  if bool_decide (prop doc "kind" = VStr "doc.terminal_tsh_node") then
    if isDocumentTshNodeWithLoginHost doc then
      Throws (Error "Cannot create a PTY for doc.terminal_tsh_node without serverId")
    else
      Returns (obj ∅ [("kind", VStr "pty.tsh-login");
                      ("proxyHost", VStr proxyHost);
                      ("clusterName", VStr clusterName);
                      ("login", prop doc "login");
                      ("serverId", prop doc "serverId");
                      ("rootClusterId", prop doc "rootClusterId");
                      ("leafClusterId", prop doc "leafClusterId")])
  else if bool_decide (prop doc "kind" = VStr "doc.terminal_tsh_kube") then
    Returns (obj doc [("proxyHost", VStr proxyHost);
                      ("clusterName", VStr clusterName);
                      ("kind", VStr "pty.tsh-kube-login")])
  else
    Returns (obj doc [("kind", VStr "pty.shell");
                      ("proxyHost", VStr proxyHost);
                      ("clusterName", VStr clusterName);
                      ("cwd", prop doc "cwd");
                      ("initCommand", prop doc "initCommand")]).

Definition createPtyProcess (ctx : IAppContext) (cmd : jsobj) : M nat :=
  emit (CreatePtyProcess cmd);;
  '(process, creationStatus) ← lift (terminalsService_createPtyProcess ctx cmd);
  when (bool_decide (creationStatus = ResolveShellEnvTimeout))
    (emit (NotifyWarning "Could not source environment variables for shell session"));;
  ret process.

(** [getClusterName] of [setUpPtyProcess], a closure over [ctx] and
    [clusterUri]. *)
Definition getClusterName (ctx : IAppContext) (clusterUri : string) : outcome string :=
  match findCluster ctx clusterUri with
  | Some cluster => Returns (cluster_name cluster)
  | None =>
      match parseClusterUri routing clusterUri ≫= (.!! "leafClusterId") with
      | Some (String c r) => Returns (String c r)
      | _ =>
          Throws (Error "The leaf cluster URI was expected, but the URI does not contain the leaf cluster ID")
      end
  end.

(** What [setUpPtyProcess] leaves behind: the process, and what the listeners
    it registered on the process close over, with the counter of the one-shot
    gate. *)
Record session := {
  ptyProcess : nat;
  s_doc : jsobj;
  s_cmd : jsobj;
  s_clusterUri : string;
  s_n : Z;
}.

Definition setUpPtyProcess (ctx : IAppContext) (doc : jsobj) : M session :=
  let clusterUri := docClusterUri doc in
  rootCluster ← match findRootClusterByResource ctx clusterUri with
                | Some c => ret c
                | None =>
                    throw (TypeError "Cannot read properties of undefined (reading 'proxyHost')")
                end;
  clusterName ← lift (getClusterName ctx clusterUri);
  cmd ← lift (createCmd doc (cluster_proxyHost rootCluster) clusterName);
  ptyProcess ← createPtyProcess ctx cmd;
  when (bool_decide (prop cmd "kind" = VStr "pty.tsh-login"))
    (emit (CaptureProtocolUse clusterUri "ssh"));;
  when (bool_decide (prop cmd "kind" = VStr "pty.tsh-kube-login"))
    (emit (CaptureProtocolUse clusterUri "kube"));;
  ret {| ptyProcess := ptyProcess; s_doc := doc; s_cmd := cmd;
         s_clusterUri := clusterUri; s_n := runOnce_init |}.

(** [refreshTitle]; [cwd] is what [ptyProcess.getCwd()] resolves to. *)
Definition refreshTitle (ctx : IAppContext) (s : session) (cwd : option string) : M unit :=
  if negb (bool_decide (prop (s_cmd s) "kind" = VStr "pty.shell")) then ret tt
  else
    clusterName ← lift (getClusterName ctx (s_clusterUri s));
    documentsService_update (prop (s_doc s) "uri")
      (obj ∅ [("cwd", of_opt cwd);
              ("title", VStr (or_else cwd "Terminal" +:+ " · " +:+ clusterName))]).

Definition removeInitCommand (s : session) : M unit :=
  if negb (bool_decide (prop (s_doc s) "kind" = VStr "doc.terminal_shell")) then ret tt
  else documentsService_update (prop (s_doc s) "uri") (obj ∅ [("initCommand", VUndef)]).

(** [markDocumentAsConnectedOnce()]: one call of the gated function. *)
Definition markDocumentAsConnectedOnce (s : session) : M session :=
  let '(n, run) := runOnce_call (s_n s) in
  when run
    (when (has_key (s_doc s) "status")
       (documentsService_update (prop (s_doc s) "uri")
          (obj ∅ [("status", VStr "connected")])));;
  ret {| ptyProcess := ptyProcess s; s_doc := s_doc s; s_cmd := s_cmd s;
         s_clusterUri := s_clusterUri s; s_n := n |}.

(** The events of a PTY process.  [PtyOpen] carries what [getCwd()] resolves
    to when the listener asks, [PtyExit] the exit code. *)
Inductive pty_event :=
| PtyOpen (cwd : option string)
| PtyData
| PtyExit (exitCode : Z).

#[global] Instance pty_event_eq_dec : EqDecision pty_event.
Proof. solve_decision. Defined.

(** The three listeners.  On open, [refreshTitle()] is called first and
    suspends at [await ptyProcess.getCwd()] before it touches the documents
    service, so the update of [removeInitCommand()] comes first; a rejection
    of [refreshTitle] is not awaited and stops nothing. *)
Definition on_event (ctx : IAppContext) (s : session) (ev : pty_event)
  : list effect * session :=
  match ev with
  | PtyOpen cwd => (trace (removeInitCommand s) ++ trace (refreshTitle ctx s cwd), s)
  | PtyData =>
      let m := markDocumentAsConnectedOnce s in
      (trace m, match result m with Returns s' => s' | Throws _ => s end)
  | PtyExit exitCode =>
      (trace (when (bool_decide (exitCode = 0))
                (documentsService_close (prop (s_doc s) "uri"))), s)
  end.

Fixpoint on_events (ctx : IAppContext) (s : session) (evs : list pty_event)
  : list effect * session :=
  match evs with
  | [] => ([], s)
  | ev :: evs =>
      let '(t, s') := on_event ctx s ev in
      let '(t', s'') := on_events ctx s' evs in
      (t ++ t', s'')
  end.

Definition startTerminalSession (ctx : IAppContext) (doc : jsobj) : M session :=
  doc ← (if isDocumentTshNodeWithLoginHost doc then resolveLoginHost ctx doc else ret doc);
  setUpPtyProcess ctx doc.

(** The callback that [useDocumentTerminal] hands to [useAsync]. *)
Definition startTerminal_cb (ctx : IAppContext) (doc : jsobj) : M session :=
  try_catch (startTerminalSession ctx doc)
    (λ err,
       when (has_key doc "status")
         (documentsService_update (prop doc "uri") (obj ∅ [("status", VStr "error")]));;
       throw err).










End Hook.

(** ** A routing and a context for the examples *)

Module Examples.

Definition str (v : jsval) : string :=
  match v with
  | VStr s => s
  | _ => "undefined"
  end.

Definition clusterPath (rootClusterId leafClusterId : jsval) : string :=
  "/clusters/" +:+ str rootClusterId +:+
  match leafClusterId with
  | VStr l => "/leaves/" +:+ l
  | _ => ""
  end.

Definition clusterParams (parts : list string) : option (gmap string string) :=
  match parts with
  | e :: c :: r :: lv :: l :: _ =>
      if bool_decide ((e, c, lv) = ("", "clusters", "leaves"))
      then Some {[ "rootClusterId" := r; "leafClusterId" := l ]}
      else if bool_decide ((e, c) = ("", "clusters"))
      then Some {[ "rootClusterId" := r ]}
      else None
  | e :: c :: r :: _ =>
      if bool_decide ((e, c) = ("", "clusters"))
      then Some {[ "rootClusterId" := r ]}
      else None
  | _ => None
  end.

Definition serverParams (parts : list string) : option (gmap string string) :=
  match parts with
  | [e; c; r; sv; s] =>
      if bool_decide ((e, c, sv) = ("", "clusters", "servers"))
      then Some {[ "rootClusterId" := r; "serverId" := s ]}
      else None
  | [e; c; r; lv; l; sv; s] =>
      if bool_decide ((e, c, lv, sv) = ("", "clusters", "leaves", "servers"))
      then Some {[ "rootClusterId" := r; "leafClusterId" := l; "serverId" := s ]}
      else None
  | _ => None
  end.

(** URIs of the shape
    [/clusters/:rootClusterId(/leaves/:leafClusterId)?/servers/:serverId]. *)
Definition routing : Routing := {|
  getClusterUri := clusterPath;
  getServerUri r l serverId := clusterPath r l +:+ "/servers/" +:+ serverId;
  parseServerUri u := serverParams (Js.split "/" u);
  parseClusterUri u := clusterParams (Js.split "/" u);
|}.

(** A cluster [prod] that knows the server [webserver1], has two servers
    named [db] and fails on the lookup of [down]. *)
Definition ctx : IAppContext := {|
  getServerByHostname _ host :=
    if bool_decide (host = "webserver1") then
      Returns (Some {| server_uri := "/clusters/prod/servers/1f2e3d";
                       server_hostname := "webserver1" |})
    else if bool_decide (host = "db") then
      Throws (AmbiguousHostnameError "ambiguous host name db")
    else if bool_decide (host = "down") then
      Throws (Error "connection refused")
    else Returns None;
  findCluster u :=
    if bool_decide (u = "/clusters/prod")
    then Some {| cluster_name := "prod"; cluster_proxyHost := "prod.example.com:3080" |}
    else None;
  findRootClusterByResource _ :=
    Some {| cluster_name := "prod"; cluster_proxyHost := "prod.example.com:3080" |};
  terminalsService_createPtyProcess _ := Returns (7%nat, Ok);
|}.

Definition sshDoc (loginHost : string) : jsobj :=
  obj ∅ [("kind", VStr "doc.terminal_tsh_node");
         ("uri", VStr "/docs/1");
         ("title", VStr loginHost);
         ("status", VStr "connecting");
         ("rootClusterId", VStr "prod");
         ("leafClusterId", VUndef);
         ("loginHost", VStr loginHost)].

Definition shellDoc : jsobj :=
  obj ∅ [("kind", VStr "doc.terminal_shell");
         ("uri", VStr "/docs/2");
         ("title", VStr "Terminal");
         ("rootClusterId", VStr "prod");
         ("initCommand", VStr "ls")].

Definition kubeDoc : jsobj :=
  obj ∅ [("kind", VStr "doc.terminal_tsh_kube");
         ("uri", VStr "/docs/3");
         ("title", VStr "cookie");
         ("status", VStr "connecting");
         ("rootClusterId", VStr "prod");
         ("kubeId", VStr "cookie")].

(** The session that [setUpPtyProcess] returns for a document in this
    context. *)
Definition session_of (doc : jsobj) : session :=
  match result (setUpPtyProcess routing ctx doc) with
  | Returns s => s
  | Throws _ =>
      {| ptyProcess := 0; s_doc := doc; s_cmd := ∅; s_clusterUri := "";
         s_n := runOnce_init |}
  end.

End Examples.

(** ** Reading a run *)

(** The server that the [try] statement of [resolveLoginHost] leaves in
    [server] when its [catch] block does not throw again. *)
Definition found (lookup : outcome (option Server)) : option Server :=
  match lookup with
  | Returns server => server
  | Throws _ => None
  end.

(** What that [catch] block logs. *)
Definition lookup_log (lookup : outcome (option Server)) : list effect :=
  match lookup with
  | Throws (AmbiguousHostnameError message) => [LoggerError message]
  | _ => []
  end.

(** The calls of [documentsService.update] in a trace. *)
Definition is_update (e : effect) : bool :=
  match e with
  | Update _ _ => true
  | _ => false
  end.

(** The updates of the [status] of a document in a trace. *)
Definition is_status_update (e : effect) : bool :=
  match e with
  | Update _ partialDoc => has_key partialDoc "status"
  | _ => false
  end.

(** The processes that a trace disposes, in order. *)
Definition dispose_of (e : effect) : option nat :=
  match e with
  | Dispose ptyProcess => Some ptyProcess
  | _ => None
  end.

(** The calls of [usageService.captureProtocolUse] in a trace. *)
Definition capture_of (e : effect) : option (string * string) :=
  match e with
  | CaptureProtocolUse clusterUri protocol => Some (clusterUri, protocol)
  | _ => None
  end.

(** The commands that a trace asks the terminals service to run. *)
Definition create_of (e : effect) : option jsobj :=
  match e with
  | CreatePtyProcess cmd => Some cmd
  | _ => None
  end.

(** The URIs that a trace closes. *)
Definition close_of (e : effect) : option jsval :=
  match e with
  | Close uri => Some uri
  | _ => None
  end.

(** The warnings of a trace. *)
Definition warning_of (e : effect) : option string :=
  match e with
  | NotifyWarning title => Some title
  | _ => None
  end.

(** ** A life of the hook *)




(** ** The initialization of the UI *)

(** [web/packages/teleterm/src/ui/initUi.ts]. *)
Module InitUi.

(** An element of the path of an issue of the config file: a key or an
    index. *)
Inductive path_element :=
| PathKey (key : string)
| PathIndex (index : N).

(** [p.toString()]. *)
Definition toString (p : path_element) : string :=
  match p with
  | PathKey key => key
  | PathIndex index => pretty index
  end.

(** An error of the stored config, as far as [initUi] reads it. *)
Record ConfigError := {
  path : list path_element;
  message : string;
}.

(** The [description] of a notification: the property is missing, or holds
    [false], or holds a text. *)
Inductive description :=
| NoDescription
| DescriptionFalse
| Description (text : string).

(** The argument of [notificationsService.notifyError]; [link] is [href] and
    [text]. *)
Record Notification := {
  n_title : string;
  n_list : list string;
  n_description : description;
  n_link : option (string * string);
}.

(** The calls that leave [initUi]. *)
Inductive call :=
| AskAboutUserJobRoleIfNeeded
| SetUpUsageReporting
| RestorePersistedState
| NotifyError (n : Notification).

(** The context, as far as [initUi] calls it: how the two awaited functions of
    [teleterm/ui/services/usage] and [restorePersistedState] end, the errors
    of the stored config ([undefined] when there is none to report) and the
    duplicated accelerators, an object whose entries come in the order of
    [Object.entries]. *)
Record Context := {
  askAboutUserJobRoleIfNeeded : outcome unit;
  setUpUsageReporting : outcome unit;
  restorePersistedState : outcome unit;
  getStoredConfigErrors : option (list ConfigError);
  getDuplicateAccelerators : list (string * list string);
}.

(** [parts.join(sep)]. *)
Fixpoint join (sep : string) (parts : list string) : string :=
  match parts with
  | [] => EmptyString
  | [p] => p
  | p :: ps => p +:+ sep +:+ join sep ps
  end.

(** Whether the path of an error is empty. *)
Definition pathless (e : ConfigError) : bool :=
  match path e with
  | [] => true
  | _ => false
  end.

(** The first element of the path of an error, as text. *)
Definition firstPath (e : ConfigError) : string :=
  from_option toString "" (head (path e)).

(** [e.path[0].toString()]: [path[0]] is [undefined] for an empty path. *)
Definition path0 (e : ConfigError) : outcome string :=
  match path e with
  | p :: _ => Returns (toString p)
  | [] => Throws (TypeError "Cannot read properties of undefined (reading 'toString')")
  end.

(** [errors.some(e => e.path[0].toString().startsWith('keymap.'))]: from left
    to right, up to the first error that passes. *)
Fixpoint isKeymapError (errors : list ConfigError) : outcome bool :=
  match errors with
  | [] => Returns false
  | e :: errors =>
      match path0 e with
      | Throws err => Throws err
      | Returns p =>
          if String.prefix "keymap." p then Returns true
          else isKeymapError errors
      end
  end.

(** [errors.map(e => `${e.path[0].toString()}: ${e.message}`)]. *)
Fixpoint errorLines (errors : list ConfigError) : outcome (list string) :=
  match errors with
  | [] => Returns []
  | e :: errors =>
      match path0 e with
      | Throws err => Throws err
      | Returns p =>
          match errorLines errors with
          | Throws err => Throws err
          | Returns lines => Returns ((p +:+ ": " +:+ message e) :: lines)
          end
      end
  end.

(** The text that explains a valid shortcut; it holds two double quotes and a
    line break. *)
Definition keymapHint : string :=
  "A valid shortcut contains at least one modifier and a single key code, for example "
  +:+ String "034" ("Shift+Tab" +:+ String "034" ("." +:+ String "010"
  "Function keys do not require a modifier.")).

(** An array is truthy even when it is empty: only [undefined] skips the
    notification. *)
Definition notifyAboutStoredConfigErrors (errors : option (list ConfigError))
  : list call * outcome unit :=
  match errors with
  | None => ([], Returns tt)
  | Some errors =>
      match isKeymapError errors with
      | Throws err => ([], Throws err)
      | Returns isKeymapError =>
          match errorLines errors with
          | Throws err => ([], Throws err)
          | Returns lines =>
              ([NotifyError
                  {| n_title := "Encountered errors in config file";
                     n_list := lines;
                     n_description :=
                       if isKeymapError then Description keymapHint
                       else DescriptionFalse;
                     n_link :=
                       Some ("https://goteleport.com/docs/connect-your-client/teleport-connect/",
                             "See the config file documentation") |}],
               Returns tt)
          end
      end
  end.

Definition duplicateLine (entry : string * list string) : string :=
  entry.1 +:+ " is used for actions: " +:+ join ", " entry.2
  +:+ ". Only one of them will work.".

Definition notifyAboutDuplicatedShortcutsCombinations
    (duplicates : list (string * list string)) : list call :=
  if (0 <? length duplicates)%nat then
    [NotifyError {| n_title := "Shortcuts conflicts";
                    n_list := map duplicateLine duplicates;
                    n_description := NoDescription;
                    n_link := None |}]
  else [].

(** One awaited or plain call of [initUi], and what follows it when it does
    not throw. *)
Definition step (c : call) (r : outcome unit) (k : list call * outcome unit)
  : list call * outcome unit :=
  match r with
  | Returns _ => (c :: k.1, k.2)
  | Throws err => ([c], Throws err)
  end.

Definition initUi (ctx : Context) : list call * outcome unit :=
  step AskAboutUserJobRoleIfNeeded (askAboutUserJobRoleIfNeeded ctx)
    (step SetUpUsageReporting (setUpUsageReporting ctx)
       (step RestorePersistedState (restorePersistedState ctx)
          (let '(t, r) := notifyAboutStoredConfigErrors (getStoredConfigErrors ctx) in
           match r with
           | Throws err => (t, Throws err)
           | Returns _ =>
               (t ++ notifyAboutDuplicatedShortcutsCombinations
                       (getDuplicateAccelerators ctx),
                Returns tt)
           end))).

(** The notifications of a trace. *)
Definition notification_of (c : call) : option Notification :=
  match c with
  | NotifyError n => Some n
  | _ => None
  end.

(** A stored config with a wrong shortcut and a wrong theme, and two
    accelerators that are taken twice. *)
Definition exampleContext : Context := {|
  askAboutUserJobRoleIfNeeded := Returns tt;
  setUpUsageReporting := Returns tt;
  restorePersistedState := Returns tt;
  getStoredConfigErrors :=
    Some [{| path := [PathKey "theme"]; message := "Invalid enum value" |};
          {| path := [PathKey "keymap.tab1"]; message := "Invalid shortcut" |}];
  getDuplicateAccelerators :=
    [("Ctrl+1", ["tab1"; "newTab"]); ("Ctrl+W", ["closeTab"; "closeWindow"])];
|}.

End InitUi.

(** ** More documents and contexts for the examples *)

Module Scenarios.

(** The context of the examples, with a shell whose environment could not be
    read in time. *)
Definition slowCtx : IAppContext := {|
  getServerByHostname := getServerByHostname Examples.ctx;
  findCluster := findCluster Examples.ctx;
  findRootClusterByResource := findRootClusterByResource Examples.ctx;
  terminalsService_createPtyProcess _ := Returns (9%nat, ResolveShellEnvTimeout);
|}.

(** A shell document of a leaf cluster that the clusters service has not
    fetched. *)
Definition leafShellDoc : jsobj :=
  obj ∅ [("kind", VStr "doc.terminal_shell");
         ("uri", VStr "/docs/4");
         ("title", VStr "Terminal");
         ("rootClusterId", VStr "prod");
         ("leafClusterId", VStr "staging")].

(** The document that [resolveLoginHost] returns in the context of the
    examples. *)
Definition resolved (doc : jsobj) : jsobj :=
  match result (resolveLoginHost Examples.routing Examples.ctx doc) with
  | Returns updatedDoc => updatedDoc
  | Throws _ => doc
  end.

(** The session that [startTerminalSession] returns in the context of the
    examples. *)
Definition started (doc : jsobj) : session :=
  match result (startTerminalSession Examples.routing Examples.ctx doc) with
  | Returns s => s
  | Throws _ => Examples.session_of doc
  end.

End Scenarios.

(** ** Splitting and joining *)

Section Strings.

Variable sep : ascii.

Lemma split_not_nil s : Js.split sep s ≠ [].
Proof.
  destruct s as [|c s]; simpl; [done|].
  destruct (Ascii.eqb c sep); [done|].
  by destruct (Js.split sep s).
Qed.

Lemma split_no_sep s : Js.occurs sep s = false → Js.split sep s = [s].
Proof.
  induction s as [|c s IH]; simpl; [done|].
  intros [Hc Hs]%orb_false_iff.
  rewrite Hc, (IH Hs). done.
Qed.

Lemma split_sep_length s :
  Js.occurs sep s = true → (1 < length (Js.split sep s))%nat.
Proof.
  induction s as [|c s IH]; simpl; [done|].
  destruct (Ascii.eqb c sep) eqn:Hc; simpl.
  - intros _. pose proof (split_not_nil s).
    destruct (Js.split sep s); [done|]. simpl. lia.
  - intros Hs. specialize (IH Hs).
    destruct (Js.split sep s); simpl in *; lia.
Qed.

Lemma join_split s : Js.join sep (Js.split sep s) = s.
Proof.
  induction s as [|c s IH]; simpl; [done|].
  pose proof (split_not_nil s) as Hnil.
  destruct (Ascii.eqb c sep) eqn:Hc.
  - apply Ascii.eqb_eq in Hc as ->.
    destruct (Js.split sep s) as [|t ts]; [done|].
    change (Js.join sep ("" :: t :: ts)) with ("" +:+ String sep (Js.join sep (t :: ts))).
    by rewrite IH.
  - destruct (Js.split sep s) as [|t ts]; [done|].
    destruct ts as [|t' ts].
    + simpl in *. by rewrite IH.
    + change (Js.join sep (String c t :: t' :: ts))
        with (String c (t +:+ String sep (Js.join sep (t' :: ts)))).
      by rewrite <- IH.
Qed.

Lemma split_tokens s : Forall (λ t, Js.occurs sep t = false) (Js.split sep s).
Proof.
  induction s as [|c s IH]; simpl.
  - by constructor.
  - destruct (Ascii.eqb c sep) eqn:Hc.
    + by constructor.
    + destruct (Js.split sep s) as [|t ts].
      * constructor; [|done]. simpl. by rewrite Hc.
      * inversion IH; subst. constructor; [|done]. simpl. by rewrite Hc.
Qed.

Lemma join_snoc parts host :
  parts ≠ [] →
  Js.join sep (parts ++ [host]) = Js.join sep parts +:+ String sep host.
Proof.
  induction parts as [|p ps IH]; [done|]. intros _.
  destruct ps as [|p' ps]; [done|].
  change (Js.join sep ((p :: p' :: ps) ++ [host]))
    with (p +:+ String sep (Js.join sep ((p' :: ps) ++ [host]))).
  rewrite IH by done.
  change (Js.join sep (p :: p' :: ps))
    with (p +:+ String sep (Js.join sep (p' :: ps))).
  generalize (Js.join sep (p' :: ps)). intros j. clear.
  induction p as [|a p IHp]; [done|].
  change (String a (p +:+ String sep (j +:+ String sep host))
          = String a ((p +:+ String sep j) +:+ String sep host)).
  by rewrite IHp.
Qed.

(** An array of at least two tokens is the array before its last token,
    followed by that token. *)
Lemma pop_snoc (parts : list string) :
  (1 < length parts)%nat →
  ∃ host, last parts = Some host ∧ removelast parts ≠ []
          ∧ parts = removelast parts ++ [host].
Proof.
  intros Hlen.
  destruct (decide (parts = [])) as [->|Hne]; [simpl in Hlen; lia|].
  destruct (exists_last Hne) as (front & host & ->).
  exists host. rewrite last_snoc, removelast_last. split_and!; [done| |done].
  intros ->. simpl in Hlen. lia.
Qed.

End Strings.

(** ** The split of [loginHost] *)

Lemma parseLoginHost_no_at (loginHost : string) :
  Js.occurs "@" loginHost = false → parseLoginHost loginHost = (None, loginHost).
Proof.
  intros H. unfold parseLoginHost. by rewrite (split_no_sep _ _ H).
Qed.

Lemma parseLoginHost_at (loginHost : string) :
  Js.occurs "@" loginHost = true →
  ∃ host, (1 < length (Js.split "@" loginHost))%nat
    ∧ last (Js.split "@" loginHost) = Some host
    ∧ parseLoginHost loginHost
      = (Some (Js.join "@" (removelast (Js.split "@" loginHost))), host)
    ∧ loginHost
      = Js.join "@" (removelast (Js.split "@" loginHost)) +:+ String "@" host
    ∧ Js.occurs "@" host = false.
Proof.
  intros H. pose proof (split_sep_length _ _ H) as Hlen.
  destruct (pop_snoc _ Hlen) as (host & Hlast & Hfront & Hparts).
  exists host. split_and!; [done|done| | |].
  - unfold parseLoginHost, Js.pop.
    apply Nat.ltb_lt in Hlen. rewrite Hlen, Hlast. done.
  - rewrite <- join_snoc, <- Hparts by done. by rewrite join_split.
  - pose proof (split_tokens "@" loginHost) as Htok.
    rewrite Forall_forall in Htok. apply Htok.
    by apply last_Some_elem_of.
Qed.

(** A leading [@] in front of a host without [@]: the login is the empty
    string. *)
Lemma parseLoginHost_leading_at (host : string) :
  Js.occurs "@" host = false →
  parseLoginHost (String "@" host) = (Some "", host).
Proof.
  intros H. unfold parseLoginHost. simpl. by rewrite (split_no_sep _ _ H).
Qed.

(** C2: [resolveLoginHost] splits [loginHost] on [@].  When the string holds
    an [@], so that the split has more than one token, the host is the last
    token and the login is the tokens before it joined with [@] again, that
    is, all the text before the last [@]; when it holds none, the whole
    string is the host and the login is [undefined].  ["a@b@c"] gives the
    login ["a@b"] and the host ["c"]. *)
Theorem parseLoginHost_splits (loginHost : string) :
  let parts := Js.split "@" loginHost in
  (if Js.occurs "@" loginHost
   then ∃ host, (1 < length parts)%nat
          ∧ last parts = Some host
          ∧ parseLoginHost loginHost = (Some (Js.join "@" (removelast parts)), host)
          ∧ loginHost = Js.join "@" (removelast parts) +:+ String "@" host
          ∧ Js.occurs "@" host = false
   else parts = [loginHost] ∧ parseLoginHost loginHost = (None, loginHost))
  ∧ parseLoginHost "a@b@c" = (Some "a@b", "c").
Proof.
  split; [|reflexivity].
  destruct (Js.occurs "@" loginHost) eqn:H.
  - by apply parseLoginHost_at.
  - split; [by apply split_no_sep | by apply parseLoginHost_no_at].
Qed.

(** ** The resolution of [loginHost] *)

Section Resolve.

Context (routing : Routing) (ctx : IAppContext) (doc : jsobj).

(** The run of [resolveLoginHost] when the lookup throws nothing but an
    ambiguous host name and the URI of the server parses. *)
Lemma resolveLoginHost_returns (loginHost : string) (params : gmap string string) :
  prop doc "loginHost" = VStr loginHost →
  let login := (parseLoginHost loginHost).1 in
  let host := (parseLoginHost loginHost).2 in
  let lookup := getServerByHostname ctx (docClusterUri routing doc) host in
  let server := found lookup in
  let serverUri := from_option server_uri (literalServerUri routing doc host) server in
  let hostname := from_option server_hostname host server in
  let title :=
    if truthy login then default "" login +:+ "@" +:+ hostname else hostname in
  let fields :=
    docFieldsToUpdate (of_opt (params !! "serverId")) serverUri login title in
  (∀ err, lookup = Throws err → ∃ message, err = AmbiguousHostnameError message) →
  parseServerUri routing serverUri = Some params →
  resolveLoginHost routing ctx doc
  = (lookup_log lookup ++ [Update (prop doc "uri") fields],
     Returns (spread doc fields)).
Proof.
  intros Hlh login host lookup server serverUri hostname title fields Herr Hparse.
  subst login host lookup server serverUri hostname title fields.
  unfold resolveLoginHost. rewrite Hlh. simpl.
  destruct (parseLoginHost loginHost) as [login host]; simpl in *.
  destruct (getServerByHostname ctx _ host) as [[server|]|err] eqn:Hlookup;
    simpl in *.
  - by rewrite Hparse.
  - by rewrite Hparse.
  - destruct (Herr err eq_refl) as [message ->]. simpl. by rewrite Hparse.
Qed.

(** The run of [resolveLoginHost] when the lookup throws any other error. *)
Lemma resolveLoginHost_throws (loginHost : string) (err : js_error) :
  prop doc "loginHost" = VStr loginHost →
  getServerByHostname ctx (docClusterUri routing doc) (parseLoginHost loginHost).2
  = Throws err →
  (∀ message, err ≠ AmbiguousHostnameError message) →
  resolveLoginHost routing ctx doc = ([], Throws err).
Proof.
  intros Hlh Hlookup Herr.
  unfold resolveLoginHost. rewrite Hlh. simpl.
  destruct (parseLoginHost loginHost) as [login host]; simpl in *.
  rewrite Hlookup. simpl.
  destruct err; simpl; [by destruct (Herr message)|done..].
Qed.

End Resolve.

(** ** Objects *)

Lemma prop_lookup (o : jsobj) (k : string) (v : jsval) :
  o !! k = Some v → prop o k = v.
Proof. unfold prop. by intros ->. Qed.

Lemma lookup_spread_l (doc fields : jsobj) (k : string) (v : jsval) :
  fields !! k = Some v → spread doc fields !! k = Some v.
Proof. intros H. unfold spread. by apply lookup_union_Some_l. Qed.

Lemma lookup_spread_r (doc fields : jsobj) (k : string) :
  fields !! k = None → spread doc fields !! k = doc !! k.
Proof. intros H. unfold spread. by apply lookup_union_r. Qed.

(** The five properties of [docFieldsToUpdate], and no other. *)
Lemma docFieldsToUpdate_lookup serverId serverUri login title (k : string) :
  docFieldsToUpdate serverId serverUri login title !! k
  = if decide (k = "title") then Some (VStr title)
    else if decide (k = "login") then Some (of_opt login)
    else if decide (k = "serverUri") then Some (VStr serverUri)
    else if decide (k = "serverId") then Some serverId
    else if decide (k = "loginHost") then Some VUndef
    else None.
Proof.
  unfold docFieldsToUpdate, obj. simpl.
  repeat (case_decide; [by simplify_map_eq|]). by simplify_map_eq.
Qed.

Lemma docFieldsToUpdate_dom serverId serverUri login title :
  dom (docFieldsToUpdate serverId serverUri login title)
  = ({[ "loginHost"; "serverId"; "serverUri"; "login"; "title" ]} : gset string).
Proof.
  unfold docFieldsToUpdate, obj. simpl.
  rewrite !dom_insert_L, dom_empty_L. set_solver.
Qed.

(** ** What [resolveLoginHost] resolves to *)

Section Resolved.

Context (routing : Routing) (ctx : IAppContext) (doc : jsobj).


(** C3, amended: a resolution that goes through calls
    [documentsService.update] once, on the URI of the document, with the
    partial document that sets [serverId], [serverUri], [login] and [title]
    and sets [loginHost] to [undefined], and returns the original document
    overlaid with that partial document: [loginHost] reads [undefined],
    [serverId] and [title] are set, every other property is the one of the
    original.  The title is the login, [@] and the host name when the login
    is a string that is not empty, and the host name alone otherwise, that
    is, without a login or with the empty login; the host name is the one of
    the server found, or the host when none is. *)
Theorem resolveLoginHost_update (loginHost : string) (params : gmap string string)
    (serverId : string) :
  prop doc "loginHost" = VStr loginHost →
  let login := (parseLoginHost loginHost).1 in
  let host := (parseLoginHost loginHost).2 in
  let lookup := getServerByHostname ctx (docClusterUri routing doc) host in
  let server := found lookup in
  let serverUri := from_option server_uri (literalServerUri routing doc host) server in
  let hostname := from_option server_hostname host server in
  let title :=
    match login with
    | Some (String c l) => String c l +:+ "@" +:+ hostname
    | _ => hostname
    end in
  let fields := docFieldsToUpdate (VStr serverId) serverUri login title in
  (∀ err, lookup = Throws err → ∃ message, err = AmbiguousHostnameError message) →
  parseServerUri routing serverUri = Some params →
  params !! "serverId" = Some serverId →
  let run := resolveLoginHost routing ctx doc in
  filter is_update (trace run) = [Update (prop doc "uri") fields]
  ∧ result run = Returns (spread doc fields)
  ∧ dom fields = {[ "loginHost"; "serverId"; "serverUri"; "login"; "title" ]}
  ∧ prop (spread doc fields) "loginHost" = VUndef
  ∧ prop (spread doc fields) "serverId" = VStr serverId
  ∧ prop (spread doc fields) "serverUri" = VStr serverUri
  ∧ prop (spread doc fields) "login" = of_opt login
  ∧ prop (spread doc fields) "title" = VStr title
  ∧ (∀ k, k ∉ dom fields → spread doc fields !! k = doc !! k).
Proof.
  intros Hlh login host lookup server serverUri hostname title fields
    Herr Hparse Hid run.
  pose proof (resolveLoginHost_returns routing ctx doc loginHost params Hlh) as Hrun.
  simpl in Hrun. fold login host lookup server serverUri hostname in Hrun.
  rewrite Hid in Hrun. simpl in Hrun.
  replace (if truthy login then default "" login +:+ "@" +:+ hostname else hostname)
    with title in Hrun by (subst title; by destruct login as [[|c l]|]).
  fold fields in Hrun. specialize (Hrun Herr Hparse).
  subst run. rewrite Hrun. unfold trace, result. simpl.
  split_and!.
  - rewrite filter_app.
    replace (filter is_update (lookup_log lookup)) with (@nil effect); [done|].
    destruct lookup as [?|[]]; done.
  - done.
  - apply docFieldsToUpdate_dom.
  - apply prop_lookup, lookup_spread_l. unfold fields.
    by rewrite docFieldsToUpdate_lookup.
  - apply prop_lookup, lookup_spread_l. unfold fields.
    by rewrite docFieldsToUpdate_lookup.
  - apply prop_lookup, lookup_spread_l. unfold fields.
    by rewrite docFieldsToUpdate_lookup.
  - apply prop_lookup, lookup_spread_l. unfold fields.
    by rewrite docFieldsToUpdate_lookup.
  - apply prop_lookup, lookup_spread_l. unfold fields.
    by rewrite docFieldsToUpdate_lookup.
  - intros k Hk. apply lookup_spread_r. by apply not_elem_of_dom.
Qed.

(** C10, amended: for a [loginHost] that is an [@] followed by a host without
    [@], a resolution that goes through stores the login as the empty string,
    not as [undefined], and derives the title as the host name alone. *)
Theorem resolveLoginHost_empty_login (host : string) (params : gmap string string) :
  Js.occurs "@" host = false →
  prop doc "loginHost" = VStr (String "@" host) →
  let lookup := getServerByHostname ctx (docClusterUri routing doc) host in
  let server := found lookup in
  let serverUri := from_option server_uri (literalServerUri routing doc host) server in
  let hostname := from_option server_hostname host server in
  (∀ err, lookup = Throws err → ∃ message, err = AmbiguousHostnameError message) →
  parseServerUri routing serverUri = Some params →
  ∃ fields updatedDoc,
    resolveLoginHost routing ctx doc
    = (lookup_log lookup ++ [Update (prop doc "uri") fields], Returns updatedDoc)
    ∧ fields !! "login" = Some (VStr "")
    ∧ fields !! "title" = Some (VStr hostname)
    ∧ updatedDoc !! "login" = Some (VStr "")
    ∧ updatedDoc !! "title" = Some (VStr hostname).
Proof.
  intros Hhost Hlh lookup server serverUri hostname Herr Hparse.
  pose proof (resolveLoginHost_returns routing ctx doc _ params Hlh) as Hrun.
  rewrite (parseLoginHost_leading_at _ Hhost) in Hrun. simpl in Hrun.
  eexists _, _. split; [by apply Hrun|].
  split_and!; try apply lookup_spread_l; by rewrite docFieldsToUpdate_lookup.
Qed.

End Resolved.

(** ** The command *)

(** C8: [createCmd] throws exactly on an SSH document without [serverId], the
    variant that still carries [loginHost].  On every other document it
    returns a command: [pty.tsh-login] for an SSH document, with its login,
    server and cluster identifiers; [pty.tsh-kube-login] for a Kubernetes
    document and [pty.shell] for a shell document, with the properties of the
    document copied; and [proxyHost] and [clusterName] are the ones given. *)
Theorem createCmd_total_on_resolved (doc : jsobj) (proxyHost clusterName : string) :
  match createCmd doc proxyHost clusterName with
  | Throws _ =>
      prop doc "kind" = VStr "doc.terminal_tsh_node" ∧ doc !! "serverId" = None
  | Returns cmd =>
      (prop doc "kind" ≠ VStr "doc.terminal_tsh_node" ∨ is_Some (doc !! "serverId"))
      ∧ cmd !! "proxyHost" = Some (VStr proxyHost)
      ∧ cmd !! "clusterName" = Some (VStr clusterName)
      ∧ if decide (prop doc "kind" = VStr "doc.terminal_tsh_node") then
          cmd !! "kind" = Some (VStr "pty.tsh-login")
          ∧ cmd !! "login" = Some (prop doc "login")
          ∧ cmd !! "serverId" = Some (prop doc "serverId")
          ∧ cmd !! "rootClusterId" = Some (prop doc "rootClusterId")
          ∧ cmd !! "leafClusterId" = Some (prop doc "leafClusterId")
        else if decide (prop doc "kind" = VStr "doc.terminal_tsh_kube") then
          cmd !! "kind" = Some (VStr "pty.tsh-kube-login")
          ∧ ∀ k, k ∉ ({[ "kind"; "proxyHost"; "clusterName" ]} : gset string) →
                 cmd !! k = doc !! k
        else
          cmd !! "kind" = Some (VStr "pty.shell")
          ∧ cmd !! "cwd" = Some (prop doc "cwd")
          ∧ cmd !! "initCommand" = Some (prop doc "initCommand")
          ∧ ∀ k, k ∉ ({[ "kind"; "proxyHost"; "clusterName"; "cwd";
                         "initCommand" ]} : gset string) →
                 cmd !! k = doc !! k
  end.
Proof.
  unfold createCmd, isDocumentTshNodeWithLoginHost, has_key.
  destruct (decide (prop doc "kind" = VStr "doc.terminal_tsh_node")) as [Hn|Hn].
  - rewrite (bool_decide_eq_true_2 _ Hn). simpl.
    destruct (doc !! "serverId") as [v|] eqn:Hid.
    + rewrite bool_decide_eq_true_2 by eauto. simpl.
      split_and!; [by right|by simplify_map_eq..].
    + rewrite bool_decide_eq_false_2 by (by intros [? ?]). simpl. done.
  - rewrite (bool_decide_eq_false_2 _ Hn).
    destruct (decide (prop doc "kind" = VStr "doc.terminal_tsh_kube")) as [Hk|Hk].
    + rewrite (bool_decide_eq_true_2 _ Hk). simpl.
      split_and!; [by left|by simplify_map_eq..|].
      intros k Hnot. rewrite !lookup_insert_ne by set_solver. done.
    + rewrite (bool_decide_eq_false_2 _ Hk). simpl.
      split_and!; [by left|by simplify_map_eq..|].
      intros k Hnot. rewrite !lookup_insert_ne by set_solver. done.
Qed.

(** ** The session of a PTY process *)

Section Session.

Context (routing : Routing) (ctx : IAppContext).

(** What a session that [setUpPtyProcess] returned closes over. *)
Lemma setUpPtyProcess_returns (doc : jsobj) (s : session) :
  result (setUpPtyProcess routing ctx doc) = Returns s →
  ∃ rootCluster clusterName,
    findRootClusterByResource ctx (docClusterUri routing doc) = Some rootCluster
    ∧ getClusterName routing ctx (docClusterUri routing doc) = Returns clusterName
    ∧ createCmd doc (cluster_proxyHost rootCluster) clusterName = Returns (s_cmd s)
    ∧ s_doc s = doc
    ∧ s_clusterUri s = docClusterUri routing doc
    ∧ s_n s = runOnce_init.
Proof.
  unfold setUpPtyProcess, createPtyProcess, result.
  destruct (findRootClusterByResource ctx _) as [rootCluster|] eqn:Hroot;
    [|done]. simpl.
  destruct (getClusterName routing ctx _) as [clusterName|] eqn:Hname;
    [|done]. simpl.
  destruct (createCmd doc _ clusterName) as [cmd|] eqn:Hcmd; [|done]. simpl.
  destruct (terminalsService_createPtyProcess ctx cmd) as [[p st]|]; [|done].
  simpl.
  destruct (bool_decide (st = ResolveShellEnvTimeout)),
    (bool_decide (prop cmd "kind" = VStr "pty.tsh-login")),
    (bool_decide (prop cmd "kind" = VStr "pty.tsh-kube-login")); simpl;
    intros [= <-]; exists rootCluster, clusterName; done.
Qed.

(** The listeners change nothing of a session but the counter of the gate. *)
Lemma on_event_closure (s : session) (ev : pty_event) :
  let s' := (on_event routing ctx s ev).2 in
  s_doc s' = s_doc s ∧ s_cmd s' = s_cmd s ∧ s_clusterUri s' = s_clusterUri s
  ∧ ptyProcess s' = ptyProcess s.
Proof.
  destruct ev; simpl; [done| |done].
  unfold markDocumentAsConnectedOnce.
  destruct (runOnce_call (s_n s)) as [n [|]]; simpl; [|done].
  by destruct (has_key (s_doc s) "status").
Qed.

Lemma on_events_app (s : session) (evs evs' : list pty_event) :
  on_events routing ctx s (evs ++ evs')
  = let '(t, s') := on_events routing ctx s evs in
    let '(t', s'') := on_events routing ctx s' evs' in
    (t ++ t', s'').
Proof.
  revert s. induction evs as [|ev evs IH]; intros s; simpl.
  - by destruct (on_events routing ctx s evs').
  - destruct (on_event routing ctx s ev) as [t s1].
    rewrite IH.
    destruct (on_events routing ctx s1 evs) as [t1 s2].
    destruct (on_events routing ctx s2 evs') as [t2 s3].
    by rewrite app_assoc.
Qed.

(** The first call of the gated function runs it and leaves the counter at 1;
    from there on no call runs it. *)
Lemma runOnce_first : runOnce_call runOnce_init = (1, true).
Proof. reflexivity. Qed.

Lemma runOnce_spent (n : Z) :
  n ≤ 1 → (runOnce_call n).1 ≤ 1 ∧ (runOnce_call n).2 = false.
Proof.
  intros Hn. unfold runOnce_call. simpl.
  destruct (Z.leb_spec n (- 2 ^ 53)); split; try lia.
Qed.

(** A data event on a fresh gate. *)
Lemma on_data_first (s : session) :
  s_n s = runOnce_init →
  (on_event routing ctx s PtyData).1
  = (if has_key (s_doc s) "status"
     then [Update (prop (s_doc s) "uri") (obj ∅ [("status", VStr "connected")])]
     else [])
  ∧ s_n (on_event routing ctx s PtyData).2 = 1.
Proof.
  intros Hn. simpl. unfold markDocumentAsConnectedOnce.
  rewrite Hn, runOnce_first. simpl.
  by destruct (has_key (s_doc s) "status").
Qed.

(** An event on a spent gate, or an event other than data on any gate: the
    status of the document is not updated, and a spent gate stays spent. *)
Lemma on_event_no_status (s : session) (ev : pty_event) :
  s_n s ≤ 1 ∨ ev ≠ PtyData →
  filter is_status_update (on_event routing ctx s ev).1 = []
  ∧ (s_n s ≤ 1 → s_n (on_event routing ctx s ev).2 ≤ 1)
  ∧ (ev ≠ PtyData → s_n (on_event routing ctx s ev).2 = s_n s).
Proof.
  intros H. destruct ev as [cwd| |exitCode]; simpl.
  - split; [|done]. unfold removeInitCommand, refreshTitle.
    destruct (bool_decide (prop (s_doc s) "kind" = VStr "doc.terminal_shell")),
      (bool_decide (prop (s_cmd s) "kind" = VStr "pty.shell")); simpl;
      try destruct (getClusterName routing ctx (s_clusterUri s)); done.
  - destruct H as [H|H]; [|done].
    unfold markDocumentAsConnectedOnce.
    destruct (runOnce_spent _ H) as [Hle Hrun].
    destruct (runOnce_call (s_n s)) as [n run]; simpl in *. subst run. simpl.
    done.
  - split; [|done]. by destruct (bool_decide (exitCode = 0)).
Qed.

Lemma on_events_no_status (s : session) (evs : list pty_event) :
  s_n s ≤ 1 ∨ PtyData ∉ evs →
  filter is_status_update (on_events routing ctx s evs).1 = []
  ∧ (s_n s ≤ 1 → s_n (on_events routing ctx s evs).2 ≤ 1)
  ∧ (PtyData ∉ evs → s_n (on_events routing ctx s evs).2 = s_n s).
Proof.
  revert s. induction evs as [|ev evs IH]; intros s H; simpl; [done|].
  assert (s_n s ≤ 1 ∨ ev ≠ PtyData) as Hev.
  { destruct H as [H|H]; [by left|right]. intros ->. apply H. left. }
  destruct (on_event_no_status s ev Hev) as (Ht & Hle & Heq).
  destruct (on_event routing ctx s ev) as [t s1]. simpl in *.
  assert (s_n s1 ≤ 1 ∨ PtyData ∉ evs) as Hevs.
  { destruct H as [H|H]; [left; by apply Hle|right]. intros Hin. apply H. by right. }
  destruct (IH s1 Hevs) as (Ht' & Hle' & Heq').
  destruct (on_events routing ctx s1 evs) as [t' s2]. simpl in *.
  split_and!.
  - by rewrite filter_app, Ht, Ht'.
  - intros Hs. by apply Hle', Hle.
  - intros Hnot. rewrite Heq', Heq; [done| |].
    + intros ->. apply Hnot. left.
    + intros Hin. apply Hnot. by right.
Qed.

End Session.

(** ** The events of a PTY process *)

(** The command of a shell document is a shell command, and every command
    carries the name of the cluster it was built with. *)
Lemma createCmd_returns (doc : jsobj) (proxyHost clusterName : string) (cmd : jsobj) :
  createCmd doc proxyHost clusterName = Returns cmd →
  cmd !! "clusterName" = Some (VStr clusterName)
  ∧ (prop doc "kind" = VStr "doc.terminal_shell" →
     prop cmd "kind" = VStr "pty.shell").
Proof.
  unfold createCmd.
  destruct (bool_decide (prop doc "kind" = VStr "doc.terminal_tsh_node")) eqn:Hn.
  - destruct (isDocumentTshNodeWithLoginHost doc); [done|].
    intros [= <-]. split; [by simplify_map_eq|].
    intros Hk. apply bool_decide_eq_true in Hn. rewrite Hk in Hn. discriminate.
  - destruct (bool_decide (prop doc "kind" = VStr "doc.terminal_tsh_kube")) eqn:Hkube;
      intros [= <-]; (split; [by simplify_map_eq|]).
    + intros Hk. apply bool_decide_eq_true in Hkube. rewrite Hk in Hkube.
      discriminate.
    + intros _. unfold prop. by simplify_map_eq.
Qed.

Section Events.

Context (routing : Routing) (ctx : IAppContext).

(** C4: on the process of an attempt, whose gate [setUpPtyProcess] has just
    created, the events before the first data event update no status, the
    first data event updates the status to [connected] when the document has
    a status, and no event after it updates a status again, however many data
    events follow: over the whole sequence the status is updated once. *)
Theorem connected_once (doc : jsobj) (s : session) (pre post : list pty_event) :
  result (setUpPtyProcess routing ctx doc) = Returns s →
  PtyData ∉ pre →
  let connected :=
    Update (prop doc "uri") (obj ∅ [("status", VStr "connected")]) in
  let before := on_events routing ctx s pre in
  let first := on_event routing ctx before.2 PtyData in
  let after := on_events routing ctx first.2 post in
  s_n s = runOnce_init
  ∧ on_events routing ctx s (pre ++ PtyData :: post)
    = (before.1 ++ first.1 ++ after.1, after.2)
  ∧ filter is_status_update before.1 = []
  ∧ first.1 = (if has_key doc "status" then [connected] else [])
  ∧ filter is_status_update after.1 = []
  ∧ filter is_status_update (on_events routing ctx s (pre ++ PtyData :: post)).1
    = (if has_key doc "status" then [connected] else []).
Proof.
  intros Hs Hpre connected before first after.
  destruct (setUpPtyProcess_returns routing ctx doc s Hs)
    as (_ & _ & _ & _ & _ & Hdoc & _ & Hn).
  assert (on_events routing ctx s (pre ++ PtyData :: post)
          = (before.1 ++ first.1 ++ after.1, after.2)) as Hrun.
  { rewrite on_events_app. subst before first after.
    destruct (on_events routing ctx s pre) as [t1 s1]. cbn [fst snd].
    change (on_events routing ctx s1 (PtyData :: post))
      with (let '(t, s') := on_event routing ctx s1 PtyData in
            let '(t', s'') := on_events routing ctx s' post in
            (t ++ t', s'')).
    destruct (on_event routing ctx s1 PtyData) as [t2 s2]. cbn [fst snd].
    by destruct (on_events routing ctx s2 post) as [t3 s3]. }
  destruct (on_events_no_status routing ctx s pre (or_intror Hpre))
    as (Hbefore & _ & Hn1).
  specialize (Hn1 Hpre). fold before in Hbefore, Hn1.
  assert (s_doc before.2 = doc) as Hdoc1.
  { rewrite <- Hdoc. subst before. clear. revert s.
    induction pre as [|ev evs IH]; intros s; simpl; [done|].
    pose proof (on_event_closure routing ctx s ev) as (Hd & _).
    destruct (on_event routing ctx s ev) as [t s1]. simpl in *.
    specialize (IH s1).
    destruct (on_events routing ctx s1 evs) as [t' s2]. simpl in *.
    by rewrite IH. }
  destruct (on_data_first routing ctx before.2) as [Hfirst Hn2];
    [by rewrite Hn1|].
  fold first in Hfirst, Hn2. rewrite Hdoc1 in Hfirst. fold connected in Hfirst.
  destruct (on_events_no_status routing ctx first.2 post) as (Hafter & _ & _);
    [left; lia|].
  fold after in Hafter.
  split_and!; try done.
  rewrite Hrun. cbn [fst]. rewrite !filter_app, Hbefore, Hafter, Hfirst.
  rewrite app_nil_r. cbn [app].
  destruct (has_key doc "status") eqn:Hst; [|done].
  subst connected. rewrite filter_cons_True; [done|]. by vm_compute.
Qed.

(** C5: on an exit event the listener calls [documentsService.close] on the
    URI of the document exactly when the exit code is 0, and issues nothing
    otherwise; in the workspace the document is removed in the first case and
    stays as it is in the second. *)
Theorem exit_closes_iff_zero (s : session) (exitCode : Z) (uri : string)
    (docs : gmap string jsobj) (d : jsobj) :
  prop (s_doc s) "uri" = VStr uri →
  docs !! uri = Some d →
  let t := (on_event routing ctx s (PtyExit exitCode)).1 in
  (Close (VStr uri) ∈ t ↔ exitCode = 0)
  ∧ (is_Some (store_run docs t !! uri) ↔ exitCode ≠ 0)
  ∧ if decide (exitCode = 0)
    then t = [Close (VStr uri)] ∧ store_run docs t !! uri = None
    else t = [] ∧ store_run docs t = docs.
Proof.
  intros Huri Hd t. subst t. simpl. rewrite Huri.
  destruct (decide (exitCode = 0)) as [->|Hne].
  - simpl. rewrite lookup_delete_eq. split_and!; [|by split; [intros [? ?]|]|done..].
    split; [done|]. intros _. by left.
  - rewrite (bool_decide_eq_false_2 _ Hne). simpl. rewrite Hd.
    split_and!; [|by split; eauto|done..].
    split; [by intros ?%elem_of_nil|done].
Qed.

(** C6: on an open event of the process of an attempt, (a) when the command
    is a shell command, the listener updates [cwd] and [title] of the
    document once, the title being the working directory, [Terminal] when
    there is none, followed by [" · "] and the name of the cluster; (b) when
    the document is a shell document, the only one that carries an
    [initCommand], it updates [initCommand] to [undefined] once; a shell
    document gives a shell command, and after both updates the stored
    document has no [initCommand] left. *)
Theorem open_refreshes_and_clears (doc : jsobj) (s : session) (cwd : option string)
    (uri : string) (docs : gmap string jsobj) (d : jsobj) :
  result (setUpPtyProcess routing ctx doc) = Returns s →
  prop doc "uri" = VStr uri →
  docs !! uri = Some d →
  let t := (on_event routing ctx s (PtyOpen cwd)).1 in
  let clear := Update (VStr uri) (obj ∅ [("initCommand", VUndef)]) in
  ∃ clusterName,
    s_cmd s !! "clusterName" = Some (VStr clusterName)
    ∧ let title :=
        match cwd with
        | Some (String c r) => String c r
        | _ => "Terminal"
        end +:+ " · " +:+ clusterName in
      let refresh :=
        Update (VStr uri) (obj ∅ [("cwd", of_opt cwd); ("title", VStr title)]) in
      t = (if decide (prop doc "kind" = VStr "doc.terminal_shell")
           then [clear] else [])
          ++ (if decide (prop (s_cmd s) "kind" = VStr "pty.shell")
              then [refresh] else [])
      ∧ if decide (prop doc "kind" = VStr "doc.terminal_shell")
        then prop (s_cmd s) "kind" = VStr "pty.shell"
             ∧ t = [clear; refresh]
             ∧ ∃ d', store_run docs t !! uri = Some d'
                 ∧ prop d' "initCommand" = VUndef
                 ∧ prop d' "cwd" = of_opt cwd
                 ∧ prop d' "title" = VStr title
        else True.
Proof.
  intros Hs Huri Hd t clear.
  destruct (setUpPtyProcess_returns routing ctx doc s Hs)
    as (rootCluster & clusterName & _ & Hname & Hcmd & Hdoc & Hcl & _).
  exists clusterName.
  destruct (createCmd_returns _ _ _ _ Hcmd) as [Hcn Hshell].
  split; [done|]. intros title refresh.
  assert (t = (if decide (prop doc "kind" = VStr "doc.terminal_shell")
               then [clear] else [])
              ++ (if decide (prop (s_cmd s) "kind" = VStr "pty.shell")
                  then [refresh] else [])) as Ht.
  { subst t. simpl. unfold removeInitCommand, refreshTitle.
    rewrite Hdoc, Hcl, Hname, Huri.
    destruct (decide (prop doc "kind" = VStr "doc.terminal_shell")) as [Hk|Hk];
      [rewrite (bool_decide_eq_true_2 _ Hk)|rewrite (bool_decide_eq_false_2 _ Hk)];
      (destruct (decide (prop (s_cmd s) "kind" = VStr "pty.shell")) as [Hc|Hc];
       [rewrite (bool_decide_eq_true_2 _ Hc)|rewrite (bool_decide_eq_false_2 _ Hc)]);
      simpl; try done;
      subst refresh title; by destruct cwd as [[|c r]|]. }
  split; [done|].
  destruct (decide (prop doc "kind" = VStr "doc.terminal_shell")) as [Hk|Hk];
    [|done].
  specialize (Hshell Hk). rewrite decide_True in Ht by done. simpl in Ht.
  split_and!; [done..|].
  rewrite Ht. unfold store_run. simpl.
  rewrite !lookup_alter_eq, Hd. simpl.
  eexists. split; [done|].
  split_and!; apply prop_lookup.
  - rewrite lookup_spread_r by (by simplify_map_eq).
    apply lookup_spread_l. by simplify_map_eq.
  - apply lookup_spread_l. by simplify_map_eq.
  - apply lookup_spread_l. by simplify_map_eq.
Qed.

End Events.

(** ** Starting and starting again *)

Section Orchestrator.

Context (routing : Routing) (ctx : IAppContext) (doc : jsobj).

(** C7: when the lookup throws an error that is not an
    [AmbiguousHostnameError], [resolveLoginHost] throws that error to its
    caller without an update, the callback of the attempt updates the status
    of the document to [error], when the document has a status, and throws
    the same error. *)
Theorem lookup_failure_sets_error (loginHost : string) (err : js_error) :
  isDocumentTshNodeWithLoginHost doc = true →
  prop doc "loginHost" = VStr loginHost →
  getServerByHostname ctx (docClusterUri routing doc) (parseLoginHost loginHost).2
  = Throws err →
  (∀ message, err ≠ AmbiguousHostnameError message) →
  let error := Update (prop doc "uri") (obj ∅ [("status", VStr "error")]) in
  resolveLoginHost routing ctx doc = ([], Throws err)
  ∧ startTerminalSession routing ctx doc = ([], Throws err)
  ∧ startTerminal_cb routing ctx doc
    = (if has_key doc "status" then [error] else [], Throws err).
Proof.
  intros Hguard Hlh Hlookup Herr error.
  pose proof (resolveLoginHost_throws routing ctx doc loginHost err Hlh Hlookup Herr)
    as Hresolve.
  assert (startTerminalSession routing ctx doc = ([], Throws err)) as Hsession.
  { unfold startTerminalSession. rewrite Hguard, Hresolve. done. }
  assert (startTerminal_cb routing ctx doc
          = (if has_key doc "status" then [error] else [], Throws err)) as Hcb.
  { unfold startTerminal_cb. rewrite Hsession. simpl.
    by destruct (has_key doc "status"). }
  by split_and!.
Qed.


End Orchestrator.

(** ** The theorems at work *)


Lemma resolveLoginHost_update_witness :
  prop (Examples.sshDoc "root@webserver1") "loginHost" = VStr "root@webserver1"
  ∧ parseServerUri Examples.routing "/clusters/prod/servers/1f2e3d"
    = Some {[ "rootClusterId" := "prod"; "serverId" := "1f2e3d" ]}
  ∧ filter is_update
      (trace (resolveLoginHost Examples.routing Examples.ctx
                (Examples.sshDoc "root@webserver1")))
    = [Update (VStr "/docs/1")
         (docFieldsToUpdate (VStr "1f2e3d") "/clusters/prod/servers/1f2e3d"
            (Some "root") "root@webserver1")].
Proof.
  assert (prop (Examples.sshDoc "root@webserver1") "loginHost"
          = VStr "root@webserver1") as H1 by reflexivity.
  assert (parseServerUri Examples.routing "/clusters/prod/servers/1f2e3d"
          = Some {[ "rootClusterId" := "prod"; "serverId" := "1f2e3d" ]})
    as H2 by (vm_compute; reflexivity).
  assert (∀ err,
            getServerByHostname Examples.ctx
              (docClusterUri Examples.routing (Examples.sshDoc "root@webserver1"))
              "webserver1" = Throws err →
            ∃ message, err = AmbiguousHostnameError message) as H3.
  { intros err H. vm_compute in H. discriminate H. }
  split_and!; [exact H1|exact H2|].
  exact (proj1 (resolveLoginHost_update Examples.routing Examples.ctx
                  (Examples.sshDoc "root@webserver1") "root@webserver1"
                  {[ "rootClusterId" := "prod"; "serverId" := "1f2e3d" ]}
                  "1f2e3d" H1 H3 H2 eq_refl)).
Defined.

Lemma resolveLoginHost_empty_login_witness :
  Js.occurs "@" "build" = false
  ∧ prop (Examples.sshDoc "@build") "loginHost" = VStr "@build"
  ∧ parseServerUri Examples.routing "/clusters/prod/servers/build"
    = Some {[ "rootClusterId" := "prod"; "serverId" := "build" ]}
  ∧ ∃ fields updatedDoc,
      resolveLoginHost Examples.routing Examples.ctx (Examples.sshDoc "@build")
      = ([Update (VStr "/docs/1") fields], Returns updatedDoc)
      ∧ updatedDoc !! "login" = Some (VStr "")
      ∧ updatedDoc !! "title" = Some (VStr "build").
Proof.
  assert (Js.occurs "@" "build" = false) as H1 by reflexivity.
  assert (prop (Examples.sshDoc "@build") "loginHost" = VStr "@build")
    as H2 by reflexivity.
  assert (parseServerUri Examples.routing "/clusters/prod/servers/build"
          = Some {[ "rootClusterId" := "prod"; "serverId" := "build" ]})
    as H3 by (vm_compute; reflexivity).
  assert (∀ err,
            getServerByHostname Examples.ctx
              (docClusterUri Examples.routing (Examples.sshDoc "@build"))
              "build" = Throws err →
            ∃ message, err = AmbiguousHostnameError message) as H4.
  { intros err H. vm_compute in H. discriminate H. }
  destruct (resolveLoginHost_empty_login Examples.routing Examples.ctx
              (Examples.sshDoc "@build") "build"
              {[ "rootClusterId" := "prod"; "serverId" := "build" ]}
              H1 H2 H4 H3)
    as (fields & updatedDoc & Hrun & _ & _ & Hlogin & Htitle).
  split_and!; [exact H1|exact H2|exact H3|].
  exists fields, updatedDoc. split_and!; [exact Hrun|exact Hlogin|exact Htitle].
Defined.

(** C3 as it is stated fails on ["@build"]: the update carries a login, the
    empty string, and the title is the host name alone, not the login, [@]
    and the host name. *)
Lemma empty_login_title_counterexample :
  ∃ fields updatedDoc,
    resolveLoginHost Examples.routing Examples.ctx (Examples.sshDoc "@build")
    = ([Update (VStr "/docs/1") fields], Returns updatedDoc)
    ∧ fields !! "login" = Some (VStr "")
    ∧ fields !! "title" = Some (VStr "build")
    ∧ fields !! "title" ≠ Some (VStr ("" +:+ "@" +:+ "build")).
Proof.
  eexists _, _. split; [vm_compute; reflexivity|].
  split_and!; [by vm_compute|by vm_compute|by vm_compute].
Qed.

(** C10 as it is stated fails on ["@a@b"], which begins with [@]: the login
    that is stored is ["@a"], not the empty string, and the title carries
    it. *)
Lemma leading_at_login_counterexample :
  ∃ updatedDoc,
    result (resolveLoginHost Examples.routing Examples.ctx (Examples.sshDoc "@a@b"))
    = Returns updatedDoc
    ∧ updatedDoc !! "login" = Some (VStr "@a")
    ∧ updatedDoc !! "title" = Some (VStr "@a@b")
    ∧ updatedDoc !! "login" ≠ Some (VStr "")
    ∧ updatedDoc !! "title" ≠ Some (VStr "b").
Proof.
  eexists. split; [vm_compute; reflexivity|].
  split_and!; [by vm_compute|by vm_compute|by vm_compute|by vm_compute].
Qed.

Lemma connected_once_witness :
  result (setUpPtyProcess Examples.routing Examples.ctx Examples.kubeDoc)
  = Returns (Examples.session_of Examples.kubeDoc)
  ∧ (PtyData ∉ [PtyOpen None])
  ∧ filter is_status_update
      (on_events Examples.routing Examples.ctx
         (Examples.session_of Examples.kubeDoc)
         ([PtyOpen None] ++ PtyData :: [PtyData; PtyData; PtyExit 1])).1
    = [Update (VStr "/docs/3") (obj ∅ [("status", VStr "connected")])].
Proof.
  assert (result (setUpPtyProcess Examples.routing Examples.ctx Examples.kubeDoc)
          = Returns (Examples.session_of Examples.kubeDoc))
    as H1 by (vm_compute; reflexivity).
  assert (PtyData ∉ [PtyOpen None]) as H2.
  { apply (bool_decide_unpack _). vm_compute. exact I. }
  split_and!; [exact H1|exact H2|].
  exact (proj2 (proj2 (proj2 (proj2 (proj2
           (connected_once Examples.routing Examples.ctx Examples.kubeDoc
              (Examples.session_of Examples.kubeDoc)
              [PtyOpen None] [PtyData; PtyData; PtyExit 1] H1 H2)))))).
Defined.

Lemma exit_closes_iff_zero_witness :
  prop (s_doc (Examples.session_of Examples.shellDoc)) "uri" = VStr "/docs/2"
  ∧ ({[ "/docs/2" := Examples.shellDoc ]} : gmap string jsobj) !! "/docs/2"
    = Some Examples.shellDoc
  ∧ (Close (VStr "/docs/2")
       ∈ (on_event Examples.routing Examples.ctx
            (Examples.session_of Examples.shellDoc) (PtyExit 3)).1
     ↔ 3 = 0).
Proof.
  assert (prop (s_doc (Examples.session_of Examples.shellDoc)) "uri"
          = VStr "/docs/2") as H1 by (vm_compute; reflexivity).
  assert (({[ "/docs/2" := Examples.shellDoc ]} : gmap string jsobj) !! "/docs/2"
          = Some Examples.shellDoc) as H2 by (vm_compute; reflexivity).
  split_and!; [exact H1|exact H2|].
  exact (proj1 (exit_closes_iff_zero Examples.routing Examples.ctx
                  (Examples.session_of Examples.shellDoc) 3 "/docs/2"
                  {[ "/docs/2" := Examples.shellDoc ]} Examples.shellDoc H1 H2)).
Defined.

Lemma open_refreshes_and_clears_witness :
  result (setUpPtyProcess Examples.routing Examples.ctx Examples.shellDoc)
  = Returns (Examples.session_of Examples.shellDoc)
  ∧ prop Examples.shellDoc "uri" = VStr "/docs/2"
  ∧ ({[ "/docs/2" := Examples.shellDoc ]} : gmap string jsobj) !! "/docs/2"
    = Some Examples.shellDoc
  ∧ ∃ clusterName,
      s_cmd (Examples.session_of Examples.shellDoc) !! "clusterName"
      = Some (VStr clusterName).
Proof.
  assert (result (setUpPtyProcess Examples.routing Examples.ctx Examples.shellDoc)
          = Returns (Examples.session_of Examples.shellDoc))
    as H1 by (vm_compute; reflexivity).
  assert (prop Examples.shellDoc "uri" = VStr "/docs/2") as H2 by reflexivity.
  assert (({[ "/docs/2" := Examples.shellDoc ]} : gmap string jsobj) !! "/docs/2"
          = Some Examples.shellDoc) as H3 by (vm_compute; reflexivity).
  destruct (open_refreshes_and_clears Examples.routing Examples.ctx
              Examples.shellDoc (Examples.session_of Examples.shellDoc)
              (Some "/home") "/docs/2" {[ "/docs/2" := Examples.shellDoc ]}
              Examples.shellDoc H1 H2 H3)
    as (clusterName & Hname & _).
  split_and!; [exact H1|exact H2|exact H3|].
  exists clusterName. exact Hname.
Defined.

Lemma lookup_failure_sets_error_witness :
  isDocumentTshNodeWithLoginHost (Examples.sshDoc "root@down") = true
  ∧ prop (Examples.sshDoc "root@down") "loginHost" = VStr "root@down"
  ∧ getServerByHostname Examples.ctx
      (docClusterUri Examples.routing (Examples.sshDoc "root@down")) "down"
    = Throws (Error "connection refused")
  ∧ startTerminal_cb Examples.routing Examples.ctx (Examples.sshDoc "root@down")
    = ([Update (VStr "/docs/1") (obj ∅ [("status", VStr "error")])],
       Throws (Error "connection refused")).
Proof.
  assert (isDocumentTshNodeWithLoginHost (Examples.sshDoc "root@down") = true)
    as H1 by (vm_compute; reflexivity).
  assert (prop (Examples.sshDoc "root@down") "loginHost" = VStr "root@down")
    as H2 by reflexivity.
  assert (getServerByHostname Examples.ctx
            (docClusterUri Examples.routing (Examples.sshDoc "root@down")) "down"
          = Throws (Error "connection refused")) as H3 by reflexivity.
  assert (∀ message, Error "connection refused" ≠ AmbiguousHostnameError message)
    as H4 by (intros message H; discriminate H).
  split_and!; [exact H1|exact H2|exact H3|].
  exact (proj2 (proj2
           (lookup_failure_sets_error Examples.routing Examples.ctx
              (Examples.sshDoc "root@down") "root@down"
              (Error "connection refused") H1 H2 H3 H4))).
Defined.


(** ** Traces of the hook *)

Lemma trace_bind {A B} (m : M A) (k : A → M B) :
  trace (m ≫= k)
  = trace m ++ match result m with
               | Returns a => trace (k a)
               | Throws _ => []
               end.
Proof.
  destruct m as [t [a|e]]; unfold trace, result; simpl.
  - by destruct (k a).
  - by rewrite app_nil_r.
Qed.

Lemma result_bind {A B} (m : M A) (k : A → M B) :
  result (m ≫= k)
  = match result m with
    | Returns a => result (k a)
    | Throws e => Throws e
    end.
Proof.
  destruct m as [t [a|e]]; unfold result; simpl; [|done]. by destruct (k a).
Qed.

Lemma store_run_app (docs : gmap string jsobj) (t t' : list effect) :
  store_run docs (t ++ t') = store_run (store_run docs t) t'.
Proof. unfold store_run. by rewrite foldl_app. Qed.

Lemma store_run_lookup_log (docs : gmap string jsobj) lookup :
  store_run docs (lookup_log lookup) = docs.
Proof. by destruct lookup as [?|[]]. Qed.

Section Traces.

Context (routing : Routing) (ctx : IAppContext) (doc : jsobj).

(** Every run of [resolveLoginHost]: a result comes with one update, after
    what the lookup logged, and is the document overlaid with the fields of
    that update; an error comes without an update. *)
Lemma resolveLoginHost_shape :
  let m := resolveLoginHost routing ctx doc in
  match result m with
  | Returns updatedDoc =>
      ∃ lookup serverId serverUri login title,
        trace m
        = lookup_log lookup
          ++ [Update (prop doc "uri")
                (docFieldsToUpdate serverId serverUri login title)]
        ∧ updatedDoc
          = spread doc (docFieldsToUpdate serverId serverUri login title)
  | Throws _ => ∃ lookup, trace m = lookup_log lookup
  end.
Proof.
  unfold resolveLoginHost.
  destruct (prop doc "loginHost") as [|loginHost|];
    [by exists (Returns None)| |by exists (Returns None)].
  simpl. destruct (parseLoginHost loginHost) as [login host]. simpl.
  destruct (getServerByHostname ctx (docClusterUri routing doc) host)
    as [[server|]|err] eqn:Hlookup; simpl.
  - destruct (parseServerUri routing (server_uri server)); simpl.
    + by eexists (Returns None), _, _, _, _.
    + by exists (Returns None).
  - destruct (parseServerUri routing (literalServerUri routing doc host)); simpl.
    + by eexists (Returns None), _, _, _, _.
    + by exists (Returns None).
  - destruct err as [message|message|message]; simpl;
      [|by exists (Returns None)..].
    destruct (parseServerUri routing (literalServerUri routing doc host)); simpl.
    + by eexists (Throws (AmbiguousHostnameError message)), _, _, _, _.
    + by exists (Throws (AmbiguousHostnameError message)).
Qed.

(** The kind of the command that [createCmd] returns. *)
Lemma createCmd_kind (proxyHost clusterName : string) (cmd : jsobj) :
  createCmd doc proxyHost clusterName = Returns cmd →
  prop cmd "kind"
  = VStr (if decide (prop doc "kind" = VStr "doc.terminal_tsh_node")
          then "pty.tsh-login"
          else if decide (prop doc "kind" = VStr "doc.terminal_tsh_kube")
               then "pty.tsh-kube-login"
               else "pty.shell").
Proof.
  unfold createCmd.
  destruct (decide (prop doc "kind" = VStr "doc.terminal_tsh_node")) as [Hn|Hn].
  - rewrite (bool_decide_eq_true_2 _ Hn).
    destruct (isDocumentTshNodeWithLoginHost doc); [done|].
    intros [= <-]. unfold prop. by simplify_map_eq.
  - rewrite (bool_decide_eq_false_2 _ Hn).
    destruct (decide (prop doc "kind" = VStr "doc.terminal_tsh_kube")) as [Hk|Hk].
    + rewrite (bool_decide_eq_true_2 _ Hk).
      intros [= <-]. unfold prop. by simplify_map_eq.
    + rewrite (bool_decide_eq_false_2 _ Hk).
      intros [= <-]. unfold prop. by simplify_map_eq.
Qed.

(** Every run of [setUpPtyProcess]: a session comes after the request for
    its process, then the warning of a timeout, then the capture of the
    protocol; an error comes with no call, or with the request alone. *)
Lemma setUpPtyProcess_shape :
  let m := setUpPtyProcess routing ctx doc in
  match result m with
  | Returns s =>
      ∃ creationStatus,
        terminalsService_createPtyProcess ctx (s_cmd s)
        = Returns (ptyProcess s, creationStatus)
        ∧ trace m
          = CreatePtyProcess (s_cmd s)
            :: (if bool_decide (creationStatus = ResolveShellEnvTimeout)
                then [NotifyWarning "Could not source environment variables for shell session"]
                else [])
            ++ (if bool_decide (prop (s_cmd s) "kind" = VStr "pty.tsh-login")
                then [CaptureProtocolUse (docClusterUri routing doc) "ssh"]
                else [])
            ++ (if bool_decide (prop (s_cmd s) "kind" = VStr "pty.tsh-kube-login")
                then [CaptureProtocolUse (docClusterUri routing doc) "kube"]
                else [])
  | Throws err =>
      trace m = []
      ∨ ∃ cmd, trace m = [CreatePtyProcess cmd]
               ∧ terminalsService_createPtyProcess ctx cmd = Throws err
  end.
Proof.
  unfold setUpPtyProcess, createPtyProcess.
  destruct (findRootClusterByResource ctx _) as [rootCluster|]; [|by left].
  simpl.
  destruct (getClusterName routing ctx _) as [clusterName|]; [|by left]. simpl.
  destruct (createCmd doc _ clusterName) as [cmd|]; [|by left]. simpl.
  destruct (terminalsService_createPtyProcess ctx cmd) as [[p st]|err] eqn:Hpty;
    simpl; [|right; by exists cmd].
  destruct (bool_decide (st = ResolveShellEnvTimeout)) eqn:Hst,
    (bool_decide (prop cmd "kind" = VStr "pty.tsh-login")) eqn:Hssh,
    (bool_decide (prop cmd "kind" = VStr "pty.tsh-kube-login")) eqn:Hkube;
    simpl; exists st; rewrite ?Hpty, ?Hst, ?Hssh, ?Hkube; done.
Qed.

End Traces.

(** ** From the resolution to the process *)

Section Start.

Context (routing : Routing) (ctx : IAppContext) (doc : jsobj).

Lemma ret_bind {A B} (a : A) (k : A → M B) : (ret a ≫= k) = k a.
Proof. unfold mbind, M_bind, bind, ret. by destruct (k a). Qed.

Lemma resolved_has_serverId serverId serverUri login title :
  isDocumentTshNodeWithLoginHost
    (spread doc (docFieldsToUpdate serverId serverUri login title)) = false.
Proof.
  unfold isDocumentTshNodeWithLoginHost, has_key.
  rewrite (lookup_spread_l _ _ "serverId" serverId)
    by (by rewrite docFieldsToUpdate_lookup).
  rewrite (bool_decide_eq_true_2 (is_Some _)) by eauto.
  apply andb_false_r.
Qed.

(** X1: a document that [resolveLoginHost] returned is no longer a document
    with [loginHost]: [startTerminalSession] on it goes to [setUpPtyProcess]
    without a second resolution, and [createCmd] returns a command for it
    whatever the proxy host and the cluster name; for an SSH document that is
    the [pty.tsh-login] command with the [serverId] and the [login] of the
    resolved document. *)
Theorem resolved_document_builds (updatedDoc : jsobj) :
  result (resolveLoginHost routing ctx doc) = Returns updatedDoc →
  isDocumentTshNodeWithLoginHost updatedDoc = false
  ∧ startTerminalSession routing ctx updatedDoc
    = setUpPtyProcess routing ctx updatedDoc
  ∧ prop updatedDoc "kind" = prop doc "kind"
  ∧ ∀ proxyHost clusterName,
      ∃ cmd, createCmd updatedDoc proxyHost clusterName = Returns cmd
        ∧ if decide (prop doc "kind" = VStr "doc.terminal_tsh_node")
          then cmd !! "kind" = Some (VStr "pty.tsh-login")
               ∧ cmd !! "serverId" = Some (prop updatedDoc "serverId")
               ∧ cmd !! "login" = Some (prop updatedDoc "login")
          else True.
Proof.
  intros Hres. pose proof resolveLoginHost_shape routing ctx doc as Hshape.
  simpl in Hshape. rewrite Hres in Hshape.
  destruct Hshape as (lookup & serverId & serverUri & login & title & _ & ->).
  pose proof (resolved_has_serverId serverId serverUri login title) as Hguard.
  assert (prop (spread doc (docFieldsToUpdate serverId serverUri login title)) "kind"
          = prop doc "kind") as Hkind.
  { unfold prop. rewrite lookup_spread_r; [done|].
    by rewrite docFieldsToUpdate_lookup. }
  split_and!; [done| |done|].
  - unfold startTerminalSession. rewrite Hguard. apply ret_bind.
  - intros proxyHost clusterName. unfold createCmd. rewrite Hguard, Hkind.
    destruct (decide (prop doc "kind" = VStr "doc.terminal_tsh_node")) as [Hn|Hn].
    + rewrite (bool_decide_eq_true_2 _ Hn). eexists. split; [done|].
      split_and!; by simplify_map_eq.
    + rewrite (bool_decide_eq_false_2 _ Hn).
      destruct (bool_decide (prop doc "kind" = VStr "doc.terminal_tsh_kube"));
        by eexists.
Qed.

(** X2: the document that [resolveLoginHost] returns is the document that the
    documents service holds after the update, when the service held the
    document that was resolved: the caller can go on without reading the
    store again. *)
Theorem resolved_document_is_stored (updatedDoc : jsobj) (uri : string)
    (docs : gmap string jsobj) :
  result (resolveLoginHost routing ctx doc) = Returns updatedDoc →
  prop doc "uri" = VStr uri →
  docs !! uri = Some doc →
  store_run docs (trace (resolveLoginHost routing ctx doc)) !! uri
  = Some updatedDoc
  ∧ ∀ other, other ≠ uri →
      store_run docs (trace (resolveLoginHost routing ctx doc)) !! other
      = docs !! other.
Proof.
  intros Hres Huri Hdoc.
  pose proof resolveLoginHost_shape routing ctx doc as Hshape.
  simpl in Hshape. rewrite Hres in Hshape.
  destruct Hshape as (lookup & serverId & serverUri & login & title & -> & ->).
  rewrite store_run_app, store_run_lookup_log, Huri. unfold store_run. simpl.
  split.
  - by rewrite lookup_alter_eq, Hdoc.
  - intros other Hother. by rewrite lookup_alter_ne.
Qed.

(** X3: when [startTerminalSession] returns for a document with [loginHost],
    the update of the resolution is issued before the terminals service is
    asked for a process, the command of that request is built from the
    resolved document and carries the resolved [serverId], and nothing else
    updates the document. *)
Theorem start_resolves_before_create (s : session) :
  isDocumentTshNodeWithLoginHost doc = true →
  result (startTerminalSession routing ctx doc) = Returns s →
  ∃ log fields rest,
    trace (startTerminalSession routing ctx doc)
    = log ++ Update (prop doc "uri") fields :: CreatePtyProcess (s_cmd s) :: rest
    ∧ filter is_update (log ++ rest) = []
    ∧ omap create_of (log ++ rest) = []
    ∧ s_doc s = spread doc fields
    ∧ s_cmd s !! "kind" = Some (VStr "pty.tsh-login")
    ∧ (∃ serverId, fields !! "serverId" = Some serverId
                   ∧ s_cmd s !! "serverId" = Some serverId).
Proof.
  intros Hguard Hres. unfold startTerminalSession in *. rewrite Hguard in *.
  rewrite result_bind in Hres. rewrite trace_bind.
  pose proof resolveLoginHost_shape routing ctx doc as Hshape. simpl in Hshape.
  destruct (result (resolveLoginHost routing ctx doc)) as [updatedDoc|]; [|done].
  destruct Hshape as (lookup & serverId & serverUri & login & title & -> & ->).
  set (fields := docFieldsToUpdate serverId serverUri login title) in *.
  pose proof setUpPtyProcess_shape routing ctx (spread doc fields) as Hsetup.
  simpl in Hsetup. rewrite Hres in Hsetup.
  destruct Hsetup as (st & _ & ->).
  destruct (setUpPtyProcess_returns routing ctx _ s Hres)
    as (rootCluster & clusterName & _ & _ & Hcmd & Hdoc & _).
  assert (prop (spread doc fields) "kind" = VStr "doc.terminal_tsh_node") as Hkind.
  { unfold prop. rewrite lookup_spread_r by (by subst fields; rewrite docFieldsToUpdate_lookup).
    apply andb_true_iff in Hguard as [Hk _]. by apply bool_decide_eq_true in Hk. }
  pose proof (createCmd_kind _ _ _ _ Hcmd) as Hck.
  rewrite decide_True in Hck by done.
  assert (s_cmd s !! "kind" = Some (VStr "pty.tsh-login")
          ∧ s_cmd s !! "serverId" = Some serverId) as [Hk Hid].
  { revert Hcmd. unfold createCmd.
    rewrite (bool_decide_eq_true_2 _ Hkind).
    subst fields. rewrite resolved_has_serverId.
    intros [= <-]. split; [by simplify_map_eq|].
    rewrite lookup_insert_ne by done. rewrite lookup_insert_ne by done.
    rewrite lookup_insert_eq. f_equal. apply prop_lookup, lookup_spread_l.
    by rewrite docFieldsToUpdate_lookup. }
  eexists (lookup_log lookup), fields, _. split.
  { rewrite <- app_assoc. simpl. reflexivity. }
  rewrite Hck.
  split_and!; [| |done|done|].
  - rewrite filter_app.
    replace (filter is_update (lookup_log lookup)) with (@nil effect)
      by (by destruct lookup as [?|[]]).
    by destruct (bool_decide (st = ResolveShellEnvTimeout)).
  - rewrite omap_app.
    replace (omap create_of (lookup_log lookup)) with (@nil jsobj)
      by (by destruct lookup as [?|[]]).
    by destruct (bool_decide (st = ResolveShellEnvTimeout)).
  - exists serverId. split; [|done]. subst fields.
    by rewrite docFieldsToUpdate_lookup.
Qed.

End Start.

(** ** What [setUpPtyProcess] asks of the services *)

Lemma createCmd_proxyHost (doc : jsobj) (proxyHost clusterName : string) (cmd : jsobj) :
  createCmd doc proxyHost clusterName = Returns cmd →
  cmd !! "proxyHost" = Some (VStr proxyHost).
Proof.
  unfold createCmd.
  destruct (bool_decide (prop doc "kind" = VStr "doc.terminal_tsh_node")).
  - destruct (isDocumentTshNodeWithLoginHost doc); [done|].
    intros [= <-]. by simplify_map_eq.
  - destruct (bool_decide (prop doc "kind" = VStr "doc.terminal_tsh_kube"));
      intros [= <-]; by simplify_map_eq.
Qed.

Section SetUp.

Context (routing : Routing) (ctx : IAppContext) (doc : jsobj).

(** X4: [setUpPtyProcess] asks the terminals service for one process, with
    the command of the session, and captures the use of a protocol once,
    after that request: [ssh] for an SSH document, [kube] for a Kubernetes
    document, nothing for a shell.  When it throws it has captured nothing
    and warned of nothing, and has issued one call at most. *)
Theorem usage_captured_once :
  let m := setUpPtyProcess routing ctx doc in
  match result m with
  | Returns s =>
      (∃ rest, trace m = CreatePtyProcess (s_cmd s) :: rest
               ∧ omap create_of rest = [])
      ∧ omap capture_of (trace m)
        = (if decide (prop doc "kind" = VStr "doc.terminal_tsh_node")
           then [(docClusterUri routing doc, "ssh")]
           else if decide (prop doc "kind" = VStr "doc.terminal_tsh_kube")
                then [(docClusterUri routing doc, "kube")]
                else [])
  | Throws _ =>
      omap capture_of (trace m) = []
      ∧ omap warning_of (trace m) = []
      ∧ (length (trace m) ≤ 1)%nat
  end.
Proof.
  intros m. pose proof (setUpPtyProcess_shape routing ctx doc) as Hshape.
  simpl in Hshape. fold m in Hshape.
  destruct (result m) as [s|err] eqn:Hres.
  - destruct Hshape as (st & _ & Ht).
    destruct (setUpPtyProcess_returns routing ctx doc s Hres)
      as (rootCluster & clusterName & _ & _ & Hcmd & _).
    pose proof (createCmd_kind _ _ _ _ Hcmd) as Hkind.
    rewrite Ht, Hkind. split.
    + eexists. split; [done|].
      destruct (bool_decide (st = ResolveShellEnvTimeout));
        repeat case_decide; by vm_compute.
    + destruct (bool_decide (st = ResolveShellEnvTimeout));
        repeat case_decide; by vm_compute.
  - destruct Hshape as [->|(cmd & -> & _)]; simpl; split_and!; (done || lia).
Qed.

(** X5: a shell environment that could not be read in time does not fail the
    session: when the cluster is known and the command is built,
    [setUpPtyProcess] returns the session of the process that the terminals
    service gave, whatever the creation status, and warns once exactly when
    the status is the timeout. *)
Theorem timeout_warns_and_goes_on (rootCluster : Cluster) (clusterName : string)
    (cmd : jsobj) (process : nat) (creationStatus : PtyProcessCreationStatus) :
  findRootClusterByResource ctx (docClusterUri routing doc) = Some rootCluster →
  getClusterName routing ctx (docClusterUri routing doc) = Returns clusterName →
  createCmd doc (cluster_proxyHost rootCluster) clusterName = Returns cmd →
  terminalsService_createPtyProcess ctx cmd = Returns (process, creationStatus) →
  let m := setUpPtyProcess routing ctx doc in
  result m
  = Returns {| ptyProcess := process; s_doc := doc; s_cmd := cmd;
               s_clusterUri := docClusterUri routing doc; s_n := runOnce_init |}
  ∧ omap warning_of (trace m)
    = match creationStatus with
      | ResolveShellEnvTimeout =>
          ["Could not source environment variables for shell session"]
      | Ok => []
      end.
Proof.
  intros Hroot Hname Hcmd Hpty m. subst m.
  unfold setUpPtyProcess, createPtyProcess.
  rewrite Hroot. simpl. rewrite Hname. simpl. rewrite Hcmd. simpl.
  rewrite Hpty. simpl.
  destruct creationStatus; simpl;
    destruct (bool_decide (prop cmd "kind" = VStr "pty.tsh-login")),
      (bool_decide (prop cmd "kind" = VStr "pty.tsh-kube-login")); done.
Qed.

(** X6: the command of a session carries the proxy host of the root cluster
    and the name of the cluster of the document; when the clusters service
    does not know that cluster, the name is the leaf cluster identifier that
    the URI of the cluster holds, which is then there and not empty. *)
Theorem session_cluster_name (s : session) :
  result (setUpPtyProcess routing ctx doc) = Returns s →
  ∃ rootCluster,
    findRootClusterByResource ctx (docClusterUri routing doc) = Some rootCluster
    ∧ s_cmd s !! "proxyHost" = Some (VStr (cluster_proxyHost rootCluster))
    ∧ match findCluster ctx (docClusterUri routing doc) with
      | Some cluster =>
          s_cmd s !! "clusterName" = Some (VStr (cluster_name cluster))
      | None =>
          ∃ params leafClusterId,
            parseClusterUri routing (docClusterUri routing doc) = Some params
            ∧ params !! "leafClusterId" = Some leafClusterId
            ∧ leafClusterId ≠ ""
            ∧ s_cmd s !! "clusterName" = Some (VStr leafClusterId)
      end.
Proof.
  intros Hres.
  destruct (setUpPtyProcess_returns routing ctx doc s Hres)
    as (rootCluster & clusterName & Hroot & Hname & Hcmd & _).
  exists rootCluster. split; [done|].
  split; [by eapply createCmd_proxyHost|].
  destruct (createCmd_returns _ _ _ _ Hcmd) as [Hcn _].
  unfold getClusterName in Hname.
  destruct (findCluster ctx (docClusterUri routing doc)) as [cluster|].
  - by injection Hname as <-.
  - destruct (parseClusterUri routing (docClusterUri routing doc)) as [params|];
      [|done]. simpl in Hname.
    destruct (params !! "leafClusterId") as [[|c r]|] eqn:Hleaf; [done| |done].
    injection Hname as <-. by exists params, (String c r).
Qed.

End SetUp.

(** ** The callback of the attempt *)

Section Callback.

Context (routing : Routing) (ctx : IAppContext) (doc : jsobj).

Lemma lookup_log_quiet lookup :
  filter is_status_update (lookup_log lookup) = []
  ∧ omap dispose_of (lookup_log lookup) = []
  ∧ omap close_of (lookup_log lookup) = [].
Proof. by destruct lookup as [?|[]]. Qed.

(** [resolveLoginHost] updates no status and disposes no process. *)
Lemma resolveLoginHost_quiet :
  filter is_status_update (trace (resolveLoginHost routing ctx doc)) = []
  ∧ omap dispose_of (trace (resolveLoginHost routing ctx doc)) = [].
Proof.
  pose proof (resolveLoginHost_shape routing ctx doc) as Hshape. simpl in Hshape.
  destruct (result (resolveLoginHost routing ctx doc)).
  - destruct Hshape as (lookup & serverId & serverUri & login & title & -> & _).
    destruct (lookup_log_quiet lookup) as (Hs & Hd & _).
    rewrite filter_app, omap_app, Hs, Hd. simpl. split; [|done].
    rewrite filter_cons_False; [done|].
    unfold is_status_update, has_key. rewrite docFieldsToUpdate_lookup. simpl.
    by intros [].
  - destruct Hshape as (lookup & ->).
    by destruct (lookup_log_quiet lookup) as (Hs & Hd & _).
Qed.

(** [setUpPtyProcess] updates no status and disposes no process. *)
Lemma setUpPtyProcess_quiet (d : jsobj) :
  filter is_status_update (trace (setUpPtyProcess routing ctx d)) = []
  ∧ omap dispose_of (trace (setUpPtyProcess routing ctx d)) = [].
Proof.
  pose proof (setUpPtyProcess_shape routing ctx d) as Hshape. simpl in Hshape.
  destruct (result (setUpPtyProcess routing ctx d)) as [s|err].
  - destruct Hshape as (st & _ & ->).
    destruct (bool_decide (st = ResolveShellEnvTimeout)),
      (bool_decide (prop (s_cmd s) "kind" = VStr "pty.tsh-login")),
      (bool_decide (prop (s_cmd s) "kind" = VStr "pty.tsh-kube-login")); done.
  - by destruct Hshape as [->|(cmd & -> & _)].
Qed.

Lemma startTerminalSession_quiet :
  filter is_status_update (trace (startTerminalSession routing ctx doc)) = []
  ∧ omap dispose_of (trace (startTerminalSession routing ctx doc)) = [].
Proof.
  unfold startTerminalSession. rewrite trace_bind, filter_app, omap_app.
  destruct (isDocumentTshNodeWithLoginHost doc).
  - destruct resolveLoginHost_quiet as [-> ->].
    destruct (result (resolveLoginHost routing ctx doc)) as [d|]; [|done].
    by destruct (setUpPtyProcess_quiet d) as [-> ->].
  - simpl. by destruct (setUpPtyProcess_quiet doc) as [-> ->].
Qed.

(** X7: whatever [startTerminalSession] throws, be it the lookup, a missing
    cluster, the command or the creation of the process, the callback of the
    attempt issues after the calls of the session one update of the status
    to [error], when the document has a status, and throws the same error.
    When the session is returned the callback adds nothing, and the whole
    start has updated no status. *)
Theorem callback_marks_every_error :
  let session := startTerminalSession routing ctx doc in
  let error := Update (prop doc "uri") (obj ∅ [("status", VStr "error")]) in
  match result session with
  | Throws err =>
      startTerminal_cb routing ctx doc
      = (trace session ++ (if has_key doc "status" then [error] else []),
         Throws err)
      ∧ filter is_status_update (trace (startTerminal_cb routing ctx doc))
        = (if has_key doc "status" then [error] else [])
  | Returns s =>
      startTerminal_cb routing ctx doc = session
      ∧ filter is_status_update (trace session) = []
  end.
Proof.
  intros session error.
  destruct startTerminalSession_quiet as [Hquiet _]. fold session in Hquiet.
  unfold startTerminal_cb. fold session.
  destruct session as [t [s|err]] eqn:Hs; unfold trace, result in *; simpl in *.
  - done.
  - destruct (has_key doc "status"); simpl.
    + split; [done|]. rewrite filter_app, Hquiet. simpl.
      rewrite filter_cons_True; [done|]. by vm_compute.
    + by rewrite !app_nil_r.
Qed.

End Callback.

(** ** The processes of a life of the hook *)

Section Lifecycle.

Context (routing : Routing).







End Lifecycle.

(** ** More on the events of a PTY process *)

Section MoreEvents.

Context (routing : Routing) (ctx : IAppContext).

(** X9: for an SSH or a Kubernetes document the open event of the process
    changes nothing: the listener neither asks for the working directory to
    retitle the document nor touches [initCommand], so that the title stays
    the one that the document was given. *)
Theorem open_is_silent_for_remote_sessions (doc : jsobj) (s : session)
    (cwd : option string) :
  result (setUpPtyProcess routing ctx doc) = Returns s →
  prop doc "kind" = VStr "doc.terminal_tsh_node"
  ∨ prop doc "kind" = VStr "doc.terminal_tsh_kube" →
  on_event routing ctx s (PtyOpen cwd) = ([], s).
Proof.
  intros Hres Hkind.
  destruct (setUpPtyProcess_returns routing ctx doc s Hres)
    as (rootCluster & clusterName & _ & _ & Hcmd & Hdoc & _).
  pose proof (createCmd_kind _ _ _ _ Hcmd) as Hck.
  simpl. unfold removeInitCommand, refreshTitle. rewrite Hdoc, Hck.
  destruct Hkind as [Hk|Hk]; rewrite Hk; simpl; done.
Qed.

Lemma on_event_closes (s : session) (ev : pty_event) :
  omap close_of (on_event routing ctx s ev).1
  = (if decide (ev = PtyExit 0) then [prop (s_doc s) "uri"] else []).
Proof.
  destruct ev as [cwd| |exitCode]; simpl.
  - unfold removeInitCommand, refreshTitle.
    destruct (bool_decide (prop (s_doc s) "kind" = VStr "doc.terminal_shell")),
      (bool_decide (prop (s_cmd s) "kind" = VStr "pty.shell")); simpl;
      try destruct (getClusterName routing ctx (s_clusterUri s)); done.
  - unfold markDocumentAsConnectedOnce.
    destruct (runOnce_call (s_n s)) as [n [|]]; simpl; [|done].
    by destruct (has_key (s_doc s) "status").
  - destruct (decide (exitCode = 0)) as [->|Hne]; [done|].
    rewrite (bool_decide_eq_false_2 _ Hne). simpl.
    rewrite decide_False; [done|]. by intros [= ?].
Qed.

(** X10: over any sequence of events the document is closed once for every
    exit event with the code 0, on the URI of the document, and for nothing
    else: data and open events and other exit codes never close it, and a
    second exit with the code 0 closes it again. *)
Theorem closes_are_zero_exits (s : session) (evs : list pty_event) :
  omap close_of (on_events routing ctx s evs).1
  = omap (λ ev, if decide (ev = PtyExit 0) then Some (prop (s_doc s) "uri")
                else None) evs.
Proof.
  revert s. induction evs as [|ev evs IH]; intros s; [done|].
  cbn [on_events omap].
  pose proof (on_event_closes s ev) as Hev.
  pose proof (on_event_closure routing ctx s ev) as (Hdoc & _).
  destruct (on_event routing ctx s ev) as [t s1]. cbn [fst snd] in *.
  specialize (IH s1).
  destruct (on_events routing ctx s1 evs) as [t' s2]. cbn [fst snd] in *.
  rewrite omap_app, Hev, IH, Hdoc.
  destruct (decide (ev = PtyExit 0)) as [Hd|Hd] eqn:Heq; simpl;
    by rewrite Heq.
Qed.

End MoreEvents.

(** ** The title of a document that no server was found for *)

(** X11: when the lookup finds no server, or finds the name ambiguous, the
    title of the resolved document is the text of [loginHost] as it was
    entered, unless its login is the empty string. *)
Theorem fallback_title_is_input (routing : Routing) (ctx : IAppContext)
    (doc : jsobj) (loginHost : string) (params : gmap string string) :
  prop doc "loginHost" = VStr loginHost →
  let host := (parseLoginHost loginHost).2 in
  let lookup := getServerByHostname ctx (docClusterUri routing doc) host in
  (lookup = Returns None
   ∨ ∃ message, lookup = Throws (AmbiguousHostnameError message)) →
  parseServerUri routing (literalServerUri routing doc host) = Some params →
  (parseLoginHost loginHost).1 ≠ Some "" →
  ∃ updatedDoc,
    result (resolveLoginHost routing ctx doc) = Returns updatedDoc
    ∧ updatedDoc !! "title" = Some (VStr loginHost).
Proof.
  intros Hlh host lookup Hlookup Hparse Hlogin.
  assert (found lookup = None) as Hfound.
  { destruct Hlookup as [->|[message ->]]; done. }
  pose proof (resolveLoginHost_returns routing ctx doc loginHost params Hlh) as Hrun.
  simpl in Hrun. fold host lookup in Hrun. rewrite Hfound in Hrun. simpl in Hrun.
  rewrite Hrun; [|by destruct Hlookup as [H|[message H]]; rewrite H;
                    intros err [= <-]; eauto|done].
  eexists. split; [done|].
  apply lookup_spread_l. rewrite docFieldsToUpdate_lookup. simpl.
  do 2 f_equal. subst host.
  destruct (Js.occurs "@" loginHost) eqn:Hat.
  - destruct (parseLoginHost_at loginHost Hat) as (h & _ & _ & Hp & Heq & _).
    rewrite Hp in *. simpl in *.
    destruct (Js.join "@" (removelast (Js.split "@" loginHost))) as [|c l] eqn:Hj;
      [done|]. simpl. by rewrite Heq.
  - by rewrite (parseLoginHost_no_at loginHost Hat).
Qed.

(** ** The notifications of [initUi] *)

Section Notifications.

Import InitUi.

Lemma errorLines_returns (errors : list ConfigError) :
  existsb pathless errors = false →
  errorLines errors
  = Returns (map (λ e, firstPath e +:+ ": " +:+ message e) errors)
  ∧ isKeymapError errors
    = Returns (existsb (λ e, String.prefix "keymap." (firstPath e)) errors).
Proof.
  induction errors as [|e errors IH]; [done|].
  simpl. intros [He Hes]%orb_false_iff. destruct (IH Hes) as [IHl IHk].
  unfold pathless in He. unfold path0, firstPath.
  destruct (path e) as [|p ps]; [done|]. simpl.
  rewrite IHl, IHk. split; [done|].
  by destruct (String.prefix "keymap." (toString p)).
Qed.

Lemma errorLines_throws (errors : list ConfigError) :
  existsb pathless errors = true →
  errorLines errors
  = Throws (TypeError "Cannot read properties of undefined (reading 'toString')")
  ∧ (isKeymapError errors
     = Throws (TypeError "Cannot read properties of undefined (reading 'toString')")
     ∨ isKeymapError errors = Returns true).
Proof.
  induction errors as [|e errors IH]; [done|].
  simpl. unfold pathless at 1, path0.
  destruct (path e) as [|p ps]; simpl.
  - intros _. split; [done|by left].
  - intros Hes. destruct (IH Hes) as [IHl IHk]. rewrite IHl. split; [done|].
    destruct (String.prefix "keymap." (toString p)); [by right|done].
Qed.

(** X12: with errors of the stored config to report,
    [notifyAboutStoredConfigErrors] sends one notification that lists every
    error, in order, as the firstPath element of its path, [": "] and its
    message; an empty array of errors still sends the notification, with an
    empty list.  The description is the hint on shortcuts exactly when the
    first path element of some error starts with ["keymap."], and [false]
    otherwise.  When some error has an empty path the function throws a
    [TypeError] and sends nothing. *)
Theorem stored_config_errors_notification (errors : list ConfigError) :
  let run := notifyAboutStoredConfigErrors (Some errors) in
  if existsb pathless errors then
    ∃ message, run = ([], Throws (TypeError message))
  else
    ∃ n, run = ([NotifyError n], Returns tt)
      ∧ n_title n = "Encountered errors in config file"
      ∧ n_list n = map (λ e, firstPath e +:+ ": " +:+ message e) errors
      ∧ length (n_list n) = length errors
      ∧ n_description n
        = (if existsb (λ e, String.prefix "keymap." (firstPath e)) errors
           then Description keymapHint else DescriptionFalse).
Proof.
  intros run. subst run. unfold notifyAboutStoredConfigErrors.
  destruct (existsb pathless errors) eqn:Hp.
  - destruct (errorLines_throws errors Hp) as [Hl [Hk|Hk]]; rewrite Hk, ?Hl;
      by eexists.
  - destruct (errorLines_returns errors Hp) as [Hl Hk]. rewrite Hk, Hl.
    eexists. split; [done|]. simpl. split_and!; try done.
    by rewrite length_map.
Qed.

(** X13: [initUi] asks about the job role first, sets up the usage reporting
    only when that has returned, restores the persisted state only when both
    have returned, and sends notifications only after the state has been
    restored.  When it returns it has made these three calls and then sent
    the notification of the stored config errors if there are errors to
    report, and the notification of the duplicated shortcuts if some
    accelerator is taken twice, in that order and nothing else. *)
Theorem initUi_order (ctx : Context) :
  let run := initUi ctx in
  (∃ rest, run.1 = AskAboutUserJobRoleIfNeeded :: rest)
  ∧ (SetUpUsageReporting ∈ run.1 ↔ askAboutUserJobRoleIfNeeded ctx = Returns tt)
  ∧ (RestorePersistedState ∈ run.1
     ↔ askAboutUserJobRoleIfNeeded ctx = Returns tt
       ∧ setUpUsageReporting ctx = Returns tt)
  ∧ (omap notification_of run.1 ≠ [] →
     ∃ notes, run.1 = [AskAboutUserJobRoleIfNeeded; SetUpUsageReporting;
                       RestorePersistedState] ++ map NotifyError notes)
  ∧ (run.2 = Returns tt →
     length (omap notification_of run.1)
     = ((if getStoredConfigErrors ctx is Some _ then 1 else 0)
        + (if getDuplicateAccelerators ctx is [] then 0 else 1))%nat).
Proof.
  intros run. subst run. unfold initUi, step.
  destruct (askAboutUserJobRoleIfNeeded ctx) as [[]|e1].
  2:{ simpl. split_and!; [by eexists| | |done|done].
      - split; [|done]. by intros [?|?%elem_of_nil]%elem_of_cons.
      - split; [|by intros [? _]]. by intros [?|?%elem_of_nil]%elem_of_cons. }
  destruct (setUpUsageReporting ctx) as [[]|e2].
  2:{ simpl. split_and!; [by eexists| | |done|done].
      - split; [done|]. intros _. right. left.
      - split; [|by intros [_ ?]].
        intros [?|[?|?%elem_of_nil]%elem_of_cons]%elem_of_cons; done. }
  destruct (restorePersistedState ctx) as [[]|e3].
  2:{ simpl. split_and!; [by eexists| | |done|done].
      - split; [done|]. intros _. right. left.
      - split; [done|]. intros _. right. right. left. }
  unfold notifyAboutStoredConfigErrors, notifyAboutDuplicatedShortcutsCombinations.
  destruct (getStoredConfigErrors ctx) as [errors|].
  - destruct (isKeymapError errors) as [k|e4].
    2:{ simpl. split_and!; [by eexists| | |done|done].
        - split; [done|]. intros _. right. left.
        - split; [done|]. intros _. right. right. left. }
    destruct (errorLines errors) as [lines|e5].
    2:{ simpl. split_and!; [by eexists| | |done|done].
        - split; [done|]. intros _. right. left.
        - split; [done|]. intros _. right. right. left. }
    destruct (getDuplicateAccelerators ctx) as [|d ds]; simpl.
    + split_and!; [by eexists| | | |done].
      * split; [done|]. intros _. right. left.
      * split; [done|]. intros _. right. right. left.
      * intros _. by eexists [_].
    + split_and!; [by eexists| | | |done].
      * split; [done|]. intros _. right. left.
      * split; [done|]. intros _. right. right. left.
      * intros _. by eexists [_; _].
  - destruct (getDuplicateAccelerators ctx) as [|d ds]; simpl.
    + split_and!; [by eexists| | |done|done].
      * split; [done|]. intros _. right. left.
      * split; [done|]. intros _. right. right. left.
    + split_and!; [by eexists| | | |done].
      * split; [done|]. intros _. right. left.
      * split; [done|]. intros _. right. right. left.
      * intros _. by eexists [_].
Qed.

End Notifications.

(** ** The command that runs first *)

(** X14: the command of a shell document carries the [initCommand] of the
    document, and after the open event of its process the document that the
    documents service holds gives, whatever the proxy host and the cluster
    name, a shell command whose [initCommand] is [undefined]: a session that
    is started again from the stored document does not run the command a
    second time. *)
Theorem init_command_runs_once (routing : Routing) (ctx : IAppContext)
    (doc : jsobj) (s : session) (cwd : option string) (uri : string)
    (docs : gmap string jsobj) :
  result (setUpPtyProcess routing ctx doc) = Returns s →
  prop doc "kind" = VStr "doc.terminal_shell" →
  prop doc "uri" = VStr uri →
  docs !! uri = Some doc →
  s_cmd s !! "initCommand" = Some (prop doc "initCommand")
  ∧ ∃ stored,
      store_run docs (on_event routing ctx s (PtyOpen cwd)).1 !! uri = Some stored
      ∧ ∀ proxyHost clusterName,
          ∃ cmd, createCmd stored proxyHost clusterName = Returns cmd
            ∧ cmd !! "kind" = Some (VStr "pty.shell")
            ∧ cmd !! "initCommand" = Some VUndef.
Proof.
  intros Hres Hkind Huri Hstored.
  destruct (setUpPtyProcess_returns routing ctx doc s Hres)
    as (rootCluster & clusterName & _ & Hname & Hcmd & Hdoc & Hcl & _).
  destruct (createCmd_returns _ _ _ _ Hcmd) as [_ Hshell].
  specialize (Hshell Hkind).
  split.
  { revert Hcmd. unfold createCmd. rewrite Hkind. simpl.
    intros [= <-]. by simplify_map_eq. }
  simpl. unfold removeInitCommand, refreshTitle.
  rewrite Hdoc, Hcl, Hname, Huri, Hkind, Hshell. simpl.
  unfold store_run. simpl. rewrite !lookup_alter_eq, Hstored. simpl.
  eexists. split; [done|].
  intros proxyHost name.
  set (stored := spread (spread doc _) _).
  assert (stored !! "kind" = doc !! "kind") as Hk.
  { subst stored. rewrite !lookup_spread_r by (by simplify_map_eq). done. }
  assert (stored !! "initCommand" = Some VUndef) as Hi.
  { subst stored. rewrite lookup_spread_r by (by simplify_map_eq).
    apply lookup_spread_l. by simplify_map_eq. }
  unfold createCmd, prop. rewrite Hk.
  fold (prop doc "kind"). rewrite Hkind. simpl.
  eexists. split; [done|]. rewrite Hi. split; by simplify_map_eq.
Qed.

(** ** More theorems at work *)

Lemma resolved_document_builds_witness :
  result (resolveLoginHost Examples.routing Examples.ctx (Examples.sshDoc "root@db"))
  = Returns (Scenarios.resolved (Examples.sshDoc "root@db"))
  ∧ isDocumentTshNodeWithLoginHost (Scenarios.resolved (Examples.sshDoc "root@db"))
    = false.
Proof.
  assert (result (resolveLoginHost Examples.routing Examples.ctx
                    (Examples.sshDoc "root@db"))
          = Returns (Scenarios.resolved (Examples.sshDoc "root@db")))
    as H1 by (vm_compute; reflexivity).
  split; [exact H1|].
  exact (proj1 (resolved_document_builds Examples.routing Examples.ctx
                  (Examples.sshDoc "root@db") _ H1)).
Defined.

Lemma resolved_document_is_stored_witness :
  result (resolveLoginHost Examples.routing Examples.ctx (Examples.sshDoc "root@db"))
  = Returns (Scenarios.resolved (Examples.sshDoc "root@db"))
  ∧ prop (Examples.sshDoc "root@db") "uri" = VStr "/docs/1"
  ∧ ({[ "/docs/1" := Examples.sshDoc "root@db" ]} : gmap string jsobj) !! "/docs/1"
    = Some (Examples.sshDoc "root@db")
  ∧ store_run {[ "/docs/1" := Examples.sshDoc "root@db" ]}
      (trace (resolveLoginHost Examples.routing Examples.ctx
                (Examples.sshDoc "root@db"))) !! "/docs/1"
    = Some (Scenarios.resolved (Examples.sshDoc "root@db")).
Proof.
  assert (result (resolveLoginHost Examples.routing Examples.ctx
                    (Examples.sshDoc "root@db"))
          = Returns (Scenarios.resolved (Examples.sshDoc "root@db")))
    as H1 by (vm_compute; reflexivity).
  assert (prop (Examples.sshDoc "root@db") "uri" = VStr "/docs/1")
    as H2 by reflexivity.
  assert (({[ "/docs/1" := Examples.sshDoc "root@db" ]} : gmap string jsobj)
            !! "/docs/1" = Some (Examples.sshDoc "root@db"))
    as H3 by (vm_compute; reflexivity).
  split_and!; [exact H1|exact H2|exact H3|].
  exact (proj1 (resolved_document_is_stored Examples.routing Examples.ctx
                  (Examples.sshDoc "root@db") _ "/docs/1" _ H1 H2 H3)).
Defined.

Lemma start_resolves_before_create_witness :
  isDocumentTshNodeWithLoginHost (Examples.sshDoc "root@webserver1") = true
  ∧ result (startTerminalSession Examples.routing Examples.ctx
              (Examples.sshDoc "root@webserver1"))
    = Returns (Scenarios.started (Examples.sshDoc "root@webserver1"))
  ∧ ∃ log fields rest,
      trace (startTerminalSession Examples.routing Examples.ctx
               (Examples.sshDoc "root@webserver1"))
      = log ++ Update (VStr "/docs/1") fields
               :: CreatePtyProcess
                    (s_cmd (Scenarios.started (Examples.sshDoc "root@webserver1")))
               :: rest.
Proof.
  assert (isDocumentTshNodeWithLoginHost (Examples.sshDoc "root@webserver1") = true)
    as H1 by (vm_compute; reflexivity).
  assert (result (startTerminalSession Examples.routing Examples.ctx
                    (Examples.sshDoc "root@webserver1"))
          = Returns (Scenarios.started (Examples.sshDoc "root@webserver1")))
    as H2 by (vm_compute; reflexivity).
  destruct (start_resolves_before_create Examples.routing Examples.ctx
              (Examples.sshDoc "root@webserver1") _ H1 H2)
    as (log & fields & rest & Htrace & _).
  split_and!; [exact H1|exact H2|].
  exists log, fields, rest. exact Htrace.
Defined.

Lemma timeout_warns_and_goes_on_witness :
  findRootClusterByResource Scenarios.slowCtx
    (docClusterUri Examples.routing Examples.shellDoc)
  = Some {| cluster_name := "prod"; cluster_proxyHost := "prod.example.com:3080" |}
  ∧ getClusterName Examples.routing Scenarios.slowCtx
      (docClusterUri Examples.routing Examples.shellDoc) = Returns "prod"
  ∧ createCmd Examples.shellDoc "prod.example.com:3080" "prod"
    = Returns (s_cmd (Examples.session_of Examples.shellDoc))
  ∧ omap warning_of
      (trace (setUpPtyProcess Examples.routing Scenarios.slowCtx Examples.shellDoc))
    = ["Could not source environment variables for shell session"].
Proof.
  assert (findRootClusterByResource Scenarios.slowCtx
            (docClusterUri Examples.routing Examples.shellDoc)
          = Some {| cluster_name := "prod";
                    cluster_proxyHost := "prod.example.com:3080" |})
    as H1 by reflexivity.
  assert (getClusterName Examples.routing Scenarios.slowCtx
            (docClusterUri Examples.routing Examples.shellDoc) = Returns "prod")
    as H2 by (vm_compute; reflexivity).
  assert (createCmd Examples.shellDoc "prod.example.com:3080" "prod"
          = Returns (s_cmd (Examples.session_of Examples.shellDoc)))
    as H3 by (vm_compute; reflexivity).
  assert (terminalsService_createPtyProcess Scenarios.slowCtx
            (s_cmd (Examples.session_of Examples.shellDoc))
          = Returns (9%nat, ResolveShellEnvTimeout)) as H4 by reflexivity.
  split_and!; [exact H1|exact H2|exact H3|].
  exact (proj2 (timeout_warns_and_goes_on Examples.routing Scenarios.slowCtx
                  Examples.shellDoc _ _ _ _ _ H1 H2 H3 H4)).
Defined.

Lemma session_cluster_name_witness :
  result (setUpPtyProcess Examples.routing Examples.ctx Scenarios.leafShellDoc)
  = Returns (Examples.session_of Scenarios.leafShellDoc)
  ∧ findCluster Examples.ctx
      (docClusterUri Examples.routing Scenarios.leafShellDoc) = None
  ∧ s_cmd (Examples.session_of Scenarios.leafShellDoc) !! "clusterName"
    = Some (VStr "staging")
  ∧ ∃ rootCluster,
      findRootClusterByResource Examples.ctx
        (docClusterUri Examples.routing Scenarios.leafShellDoc)
      = Some rootCluster.
Proof.
  assert (result (setUpPtyProcess Examples.routing Examples.ctx
                    Scenarios.leafShellDoc)
          = Returns (Examples.session_of Scenarios.leafShellDoc))
    as H1 by (vm_compute; reflexivity).
  destruct (session_cluster_name Examples.routing Examples.ctx
              Scenarios.leafShellDoc _ H1) as (rootCluster & Hroot & _).
  split_and!; [exact H1|vm_compute; reflexivity|vm_compute; reflexivity|].
  exists rootCluster. exact Hroot.
Defined.

Lemma open_is_silent_for_remote_sessions_witness :
  result (setUpPtyProcess Examples.routing Examples.ctx Examples.kubeDoc)
  = Returns (Examples.session_of Examples.kubeDoc)
  ∧ prop Examples.kubeDoc "kind" = VStr "doc.terminal_tsh_kube"
  ∧ on_event Examples.routing Examples.ctx (Examples.session_of Examples.kubeDoc)
      (PtyOpen (Some "/home"))
    = ([], Examples.session_of Examples.kubeDoc).
Proof.
  assert (result (setUpPtyProcess Examples.routing Examples.ctx Examples.kubeDoc)
          = Returns (Examples.session_of Examples.kubeDoc))
    as H1 by (vm_compute; reflexivity).
  assert (prop Examples.kubeDoc "kind" = VStr "doc.terminal_tsh_kube")
    as H2 by reflexivity.
  split_and!; [exact H1|exact H2|].
  exact (open_is_silent_for_remote_sessions Examples.routing Examples.ctx
           Examples.kubeDoc _ (Some "/home") H1 (or_intror H2)).
Defined.

Lemma fallback_title_is_input_witness :
  prop (Examples.sshDoc "ops@team@db") "loginHost" = VStr "ops@team@db"
  ∧ getServerByHostname Examples.ctx
      (docClusterUri Examples.routing (Examples.sshDoc "ops@team@db")) "db"
    = Throws (AmbiguousHostnameError "ambiguous host name db")
  ∧ (parseLoginHost "ops@team@db").1 ≠ Some ""
  ∧ ∃ updatedDoc,
      result (resolveLoginHost Examples.routing Examples.ctx
                (Examples.sshDoc "ops@team@db")) = Returns updatedDoc
      ∧ updatedDoc !! "title" = Some (VStr "ops@team@db").
Proof.
  assert (prop (Examples.sshDoc "ops@team@db") "loginHost" = VStr "ops@team@db")
    as H1 by reflexivity.
  assert (getServerByHostname Examples.ctx
            (docClusterUri Examples.routing (Examples.sshDoc "ops@team@db")) "db"
          = Throws (AmbiguousHostnameError "ambiguous host name db"))
    as H2 by reflexivity.
  assert (parseServerUri Examples.routing "/clusters/prod/servers/db"
          = Some {[ "rootClusterId" := "prod"; "serverId" := "db" ]})
    as H3 by (vm_compute; reflexivity).
  assert ((parseLoginHost "ops@team@db").1 ≠ Some "")
    as H4 by (vm_compute; intros H; discriminate H).
  split_and!; [exact H1|exact H2|exact H4|].
  exact (fallback_title_is_input Examples.routing Examples.ctx
           (Examples.sshDoc "ops@team@db") "ops@team@db" _
           H1 (or_intror (ex_intro _ _ H2)) H3 H4).
Defined.

Lemma init_command_runs_once_witness :
  result (setUpPtyProcess Examples.routing Examples.ctx Examples.shellDoc)
  = Returns (Examples.session_of Examples.shellDoc)
  ∧ prop Examples.shellDoc "kind" = VStr "doc.terminal_shell"
  ∧ prop Examples.shellDoc "uri" = VStr "/docs/2"
  ∧ ({[ "/docs/2" := Examples.shellDoc ]} : gmap string jsobj) !! "/docs/2"
    = Some Examples.shellDoc
  ∧ s_cmd (Examples.session_of Examples.shellDoc) !! "initCommand"
    = Some (VStr "ls").
Proof.
  assert (result (setUpPtyProcess Examples.routing Examples.ctx Examples.shellDoc)
          = Returns (Examples.session_of Examples.shellDoc))
    as H1 by (vm_compute; reflexivity).
  assert (prop Examples.shellDoc "kind" = VStr "doc.terminal_shell")
    as H2 by reflexivity.
  assert (prop Examples.shellDoc "uri" = VStr "/docs/2") as H3 by reflexivity.
  assert (({[ "/docs/2" := Examples.shellDoc ]} : gmap string jsobj) !! "/docs/2"
          = Some Examples.shellDoc) as H4 by (vm_compute; reflexivity).
  split_and!; [exact H1|exact H2|exact H3|exact H4|].
  exact (proj1 (init_command_runs_once Examples.routing Examples.ctx
                  Examples.shellDoc _ (Some "/home") "/docs/2" _ H1 H2 H3 H4)).
Defined.
